(** * notebook-to-pdf: heading extraction, table of contents and the
      conversion pipeline

    A shallow embedding of [scripts/notebook_to_pdf_toc.py] and
    [scripts/notebook_to_pdf.py].

    - A Python [str] is a list of Unicode code points ([list N]).
    - A BeautifulSoup tree is an inductive [node]; the attribute dict of a
      tag and the [heading_counter] dict are [gmap]s.
    - The in-place mutation of the soup by [extract_headings] is a
      state-passing pre-order walk that returns the mutated tree.
    - The orchestration code (subprocess, file system, Playwright) is an
      exception/state monad [M] over a world made of the files and the
      trace of the external calls; which external call raises, and what
      the converter and the browser produce, is given by an [env].
    - What lives outside the repository is the field of a class: the
      Unicode database ([Unicode]: [str.lower], [str.isalnum]), the bs4
      parser and serializer ([Bs4]), pathlib's path arithmetic
      ([Pathlib]).  Instances for ASCII text and bare file names serve to
      evaluate the code on concrete inputs. *)

From Stdlib Require Import NArith ZArith String Ascii List DecimalString.
From stdpp Require Import gmap list.

Local Open Scope Z_scope.

(** ** Python strings *)

(** [py s] reads an ASCII literal as the Python string with the same
    characters. *)
Fixpoint py (s : string) : list N :=
  match s with
  | EmptyString => []
  | String a r => N_of_ascii a :: py r
  end.

Definition nl : N := 10%N.       (* the newline character *)
Definition dq : N := 34%N.       (* the double quote character *)
Definition lt_sign : N := 60%N.  (* '<' *)
Definition hyphen : N := 45%N.   (* '-' *)
Definition underscore : N := 95%N.
Definition pilcrow : N := 182%N. (* U+00B6 *)
Definition section_sign : N := 167%N. (* U+00A7 *)

(** [str(n)] for a Python int. *)
Definition str_of_int (z : Z) : list N :=
  py (NilZero.string_of_int (Z.to_int z)).

(** [Py_UNICODE_ISSPACE]: the characters removed by [str.strip()] and
    matched by [\s] in a [str] pattern. *)
Definition isspace (c : N) : bool :=
  ((9 <=? c) && (c <=? 13) || (28 <=? c) && (c <=? 32)
   || (c =? 133) || (c =? 160) || (c =? 5760)
   || (8192 <=? c) && (c <=? 8202)
   || (c =? 8232) || (c =? 8233) || (c =? 8239) || (c =? 8287)
   || (c =? 12288))%N.

Fixpoint lstrip (s : list N) : list N :=
  match s with
  | [] => []
  | c :: r => if isspace c then lstrip r else s
  end.

Definition rstrip (s : list N) : list N := rev (lstrip (rev s)).

(** [s.strip()] *)
Definition strip (s : list N) : list N := rstrip (lstrip s).

(** [s.replace(c, '')] for a one-character [c]. *)
Definition remove_char (c : N) (s : list N) : list N :=
  List.filter (fun x => negb (x =? c)%N) s.

(** [re.sub(r'[-\s]+', '-', s)]: every maximal run of hyphens and
    whitespace becomes one hyphen.  [in_run] tells that the previous
    character belonged to a run already replaced. *)
Fixpoint collapse (in_run : bool) (s : list N) : list N :=
  match s with
  | [] => []
  | c :: r =>
      if (c =? hyphen)%N || isspace c
      then (if in_run then collapse true r else hyphen :: collapse true r)
      else c :: collapse false r
  end.

(** ** The BeautifulSoup tree

    A node is a string or a tag with its attribute dict and its children.
    Comments and the like, which [get_text] passes over and the scripts
    never look at, are not represented. *)

Inductive node : Type :=
| NavigableString (s : list N)
| Tag (name : list N) (attrs : gmap (list N) (list N)) (contents : list node).

(** [tag.get_text()]: the concatenation of the strings below the node. *)
Fixpoint get_text (n : node) : list N :=
  match n with
  | NavigableString s => s
  | Tag _ _ cs => flat_map get_text cs
  end.

(** [.descendants] of a list of children, in document order (an element
    comes before what it contains). *)
Fixpoint self_and_descendants (n : node) : list node :=
  n :: match n with
       | NavigableString _ => []
       | Tag _ _ cs => flat_map self_and_descendants cs
       end.

Definition descendants (soup : list node) : list node :=
  flat_map self_and_descendants soup.

Definition name_in (names : list (list N)) (n : node) : bool :=
  match n with
  | NavigableString _ => false
  | Tag nm _ _ => bool_decide (nm ∈ names)
  end.

Definition name_of (n : node) : list N :=
  match n with
  | NavigableString _ => []
  | Tag nm _ _ => nm
  end.

Definition attrs_of (n : node) : gmap (list N) (list N) :=
  match n with
  | NavigableString _ => ∅
  | Tag _ a _ => a
  end.

(** [soup.find_all(names)] and [soup.find(name)]. *)
Definition find_all (names : list (list N)) (soup : list node) : list node :=
  List.filter (name_in names) (descendants soup).

Definition find (name : list N) (soup : list node) : option node :=
  head (find_all [name] soup).

Definition id_key : list N := py "id".

(** [tag.get('id')] and the truth value Python gives it. *)
Definition get_id (n : node) : option (list N) :=
  match n with
  | NavigableString _ => None
  | Tag _ attrs _ => attrs !! id_key
  end.

Definition truthy (o : option (list N)) : bool :=
  match o with
  | Some (_ :: _) => true
  | _ => false
  end.

(** ** Heading records *)

Record heading : Type := Heading {
  level : Z;
  text : list N;
  anchor : list N    (* the ['id'] entry of the record *)
}.

Definition heading_names : list (list N) :=
  [py "h1"; py "h2"; py "h3"; py "h4"].

(** [int(tag.name[1])] on a name of [heading_names]. *)
Definition level_of (name : list N) : Z :=
  match name with
  | _ :: d :: _ => Z.of_N d - 48
  | _ => 0
  end.

(** The Unicode database the interpreter consults: [str.isalnum] on a
    character and [str.lower]. *)
Class Unicode : Type := {
  isalnum : N -> bool;
  lower : list N -> list N
}.

Section Extraction.

Context {U : Unicode}.

(** [\w] in a [str] pattern. *)
Definition isword (c : N) : bool := isalnum c || (c =? underscore)%N.

(** Lines 84-85: the slug of a heading text. *)
Definition slugify (t : list N) : list N :=
  collapse false
    (List.filter (fun c => isword c || isspace c || (c =? hyphen)%N) (lower t)).

(** Line 79. *)
Definition clean_text (raw : list N) : list N :=
  strip (remove_char section_sign (remove_char pilcrow (strip raw))).

(** Line 81: the guard [if not text: continue], on a tag. *)
Definition has_text (t : node) : bool :=
  match clean_text (get_text t) with
  | [] => false
  | _ :: _ => true
  end.

(** The state carried by the loop of [extract_headings]. *)
Definition state : Type := gmap (list N) Z * list heading.

(** Lines 87-92: the anchor proposed for a slug, and the counter after. *)
Definition next_anchor (counter : gmap (list N) Z) (base_id : list N)
  : gmap (list N) Z * list N :=
  match counter !! base_id with
  | Some n => (<[base_id := n + 1]> counter,
               base_id ++ hyphen :: str_of_int (n + 1))
  | None => (<[base_id := 0]> counter, base_id)
  end.

(** One iteration of the loop (lines 78-99) on a matched tag with the
    given name, attributes and [get_text()]; returns the new state and
    the attributes of the tag after the iteration. *)
Definition visit (st : state) (name : list N)
    (attrs : gmap (list N) (list N)) (raw : list N)
  : state * gmap (list N) (list N) :=
  let lvl := level_of name in
  let txt := clean_text raw in
  match txt with
  | [] => (st, attrs)
  | _ :: _ =>
      let '(counter, anchor_id) := next_anchor (fst st) (slugify txt) in
      if truthy (attrs !! id_key)
      then ((counter, snd st ++ [Heading lvl txt (default [] (attrs !! id_key))]),
            attrs)
      else ((counter, snd st ++ [Heading lvl txt anchor_id]),
            <[id_key := anchor_id]> attrs)
  end.

(** The loop over [soup.find_all(['h1','h2','h3','h4'])], written as the
    pre-order walk that meets the matched tags in the same order and
    rebuilds the tree with the new attributes. *)
Fixpoint walk_node (st : state) (n : node) : state * node :=
  match n with
  | NavigableString _ => (st, n)
  | Tag name attrs cs =>
      let '(st1, attrs') :=
        if bool_decide (name ∈ heading_names)
        then visit st name attrs (flat_map get_text cs)
        else (st, attrs) in
      let '(st2, cs') :=
        (fix walk_list (st : state) (l : list node) : state * list node :=
           match l with
           | [] => (st, [])
           | c :: r =>
               let '(sa, c') := walk_node st c in
               let '(sb, r') := walk_list sa r in
               (sb, c' :: r')
           end) st1 cs in
      (st2, Tag name attrs' cs')
  end.

Fixpoint walk_list (st : state) (l : list node) : state * list node :=
  match l with
  | [] => (st, [])
  | c :: r =>
      let '(sa, c') := walk_node st c in
      let '(sb, r') := walk_list sa r in
      (sb, c' :: r')
  end.

(** The same loop, read as the source writes it: an iteration per
    element of the list [find_all] returned.  It yields the final state
    and, for each tag, its attributes after the iteration. *)
Fixpoint loop (st : state) (tags : list node)
  : state * list (gmap (list N) (list N)) :=
  match tags with
  | [] => (st, [])
  | t :: r =>
      let '(st1, a') := visit st (name_of t) (attrs_of t) (get_text t) in
      let '(st2, r') := loop st1 r in
      (st2, a' :: r')
  end.

(** [extract_headings(soup)]: the returned list and the soup after the
    call. *)
Definition extract_headings (soup : list node) : list heading * list node :=
  let '(st, soup') := walk_list (∅, []) soup in (snd st, soup').

End Extraction.

Section Claims.

Context {U : Unicode}.

(** The position, among the records, of the record of the [j]-th matched
    tag: the tags without text before it have none. *)
Definition record_index (soup : list node) (j : nat) : nat :=
  length (List.filter has_text (take j (find_all heading_names soup))).

(** The reading of the extraction under which an [id] an element brings
    is kept and entered in the collision bookkeeping: the element keeps
    its [id], and a later heading whose slug is that [id] gets another
    anchor. *)
Definition keeps_and_registers_ids (soup : list node) : Prop :=
  forall i t v,
    find_all heading_names soup !! i = Some t ->
    get_id t = Some v ->
    get_id <$> (find_all heading_names (snd (extract_headings soup)) !! i)
      = Some (Some v)
    /\ forall j u r,
         (i < j)%nat ->
         find_all heading_names soup !! j = Some u ->
         has_text u = true ->
         slugify (clean_text (get_text u)) = v ->
         fst (extract_headings soup) !! record_index soup j = Some r ->
         anchor r <> v.

End Claims.

(** The matched tags below a node, in document order. *)
Definition matched (n : node) : list node :=
  List.filter (name_in heading_names) (self_and_descendants n).

(** What the walk keeps of every matched tag. *)
Definition same_tag (t t' : node) : Prop :=
  name_of t' = name_of t /\ get_text t' = get_text t.

(** ** The title page and the table of contents *)

(** [generate_title_page(title, subtitle, color)] (lines 42-69). *)
Definition generate_title_page (title subtitle color : list N) : list N :=
  nl ::
  py "    <div id=" ++ dq :: py "title-page" ++ dq :: py " style=" ++ dq :: nl ::
  py "        page-break-after: always;" ++ nl ::
  py "        display: flex;" ++ nl ::
  py "        flex-direction: column;" ++ nl ::
  py "        justify-content: center;" ++ nl ::
  py "        align-items: center;" ++ nl ::
  py "        min-height: 90vh;" ++ nl ::
  py "        text-align: center;" ++ nl ::
  py "        font-family: -apple-system, BlinkMacSystemFont, 'Segoe UI', Helvetica, Arial, sans-serif;" ++ nl ::
  py "    " ++ dq :: py ">" ++ nl ::
  py "        <h1 style=" ++ dq :: nl ::
  py "            color: " ++ color ++ py ";" ++ nl ::
  py "            font-size: 2.5em;" ++ nl ::
  py "            font-weight: bold;" ++ nl ::
  py "            margin-bottom: 20px;" ++ nl ::
  py "            line-height: 1.3;" ++ nl ::
  py "        " ++ dq :: py ">" ++ title ++ py "</h1>" ++ nl ::
  py "        <h2 style=" ++ dq :: nl ::
  py "            color: " ++ color ++ py ";" ++ nl ::
  py "            font-size: 1.8em;" ++ nl ::
  py "            font-weight: normal;" ++ nl ::
  py "            margin-top: 0;" ++ nl ::
  py "        " ++ dq :: py ">" ++ subtitle ++ py "</h2>" ++ nl ::
  py "    </div>" ++ nl ::
  py "    ".

(** The opening of the table of contents (lines 106-123). *)
Definition toc_head (color : list N) : list N :=
  nl ::
  py "    <div id=" ++ dq :: py "table-of-contents" ++ dq :: py " style=" ++ dq :: nl ::
  py "        page-break-after: always;" ++ nl ::
  py "        padding: 40px 20px;" ++ nl ::
  py "        margin: 0;" ++ nl ::
  py "        font-family: -apple-system, BlinkMacSystemFont, 'Segoe UI', Helvetica, Arial, sans-serif;" ++ nl ::
  py "    " ++ dq :: py ">" ++ nl ::
  py "        <h1 style=" ++ dq :: nl ::
  py "            text-align: center;" ++ nl ::
  py "            color: " ++ color ++ py ";" ++ nl ::
  py "            margin-bottom: 40px;" ++ nl ::
  py "            font-size: 2em;" ++ nl ::
  py "            font-weight: normal;" ++ nl ::
  py "            border-bottom: 2px solid " ++ color ++ py ";" ++ nl ::
  py "            padding-bottom: 15px;" ++ nl ::
  py "        " ++ dq :: py ">Table of Contents</h1>" ++ nl ::
  py "        <div style=" ++ dq :: py "line-height: 2.0;" ++ dq :: py ">" ++ nl ::
  py "    ".

(** Lines 129-136. *)
Definition font_style (lvl : Z) : list N * list N :=
  if lvl =? 1 then (py "1.1em", py "bold")
  else if lvl =? 2 then (py "1.05em", py "600")
  else if lvl =? 3 then (py "1em", py "normal")
  else (py "0.95em", py "normal").

(** What one iteration of the loop of [generate_toc] appends
    (lines 126-147). *)
Definition toc_entry (color : list N) (hd : heading) : list N :=
  let indent := (level hd - 1) * 25 in
  let '(font_size, font_weight) := font_style (level hd) in
  nl ::
  py "            <div style=" ++ dq :: py "margin-left: " ++ str_of_int indent ++ py "px; margin-bottom: 8px;" ++ dq :: py ">" ++ nl ::
  py "                <a href=" ++ dq :: py "#" ++ anchor hd ++ dq :: py " style=" ++ dq :: nl ::
  py "                    text-decoration: none;" ++ nl ::
  py "                    color: " ++ color ++ py ";" ++ nl ::
  py "                    font-size: " ++ font_size ++ py ";" ++ nl ::
  py "                    font-weight: " ++ font_weight ++ py ";" ++ nl ::
  py "                " ++ dq :: py ">" ++ text hd ++ py "</a>" ++ nl ::
  py "            </div>" ++ nl ::
  py "        ".

(** [generate_toc(headings, color)]. *)
Definition generate_toc (headings : list heading) (color : list N) : list N :=
  fold_left (fun toc_html hd => toc_html ++ toc_entry color hd) headings
    (toc_head color)
  ++ py "</div></div>".

(** ** Reading a markup string back: the links it opens

    A link is opened by [<a href=] and a double quote; its target runs
    to the next double quote.  [hrefs s] lists the targets of the links
    of [s], in order.  This is the reading of the characters as they
    stand.  An HTML parser - [html.parser], which line 179 applies to the
    table of contents, or the browser - reads the same links from a
    fragment of [generate_toc] when the values pasted into it stay where
    the template puts them: no [<] in a pasted value, no double quote in
    a value pasted inside an attribute (the color, the anchor), and no
    [&] in an anchor, which a parser would take for the start of a
    character reference.  These conditions are [plain_color] and
    [plain_heading] below; outside them the parser unescapes the target
    or meets a second [href], and the statements about [hrefs] say
    nothing of what it reads. *)
Definition link_open : list N := py "<a href=" ++ [dq].

Fixpoint starts_with (p s : list N) : bool :=
  match p, s with
  | [], _ => true
  | _ :: _, [] => false
  | c :: p', d :: s' => (c =? d)%N && starts_with p' s'
  end.

Fixpoint until_quote (s : list N) : list N :=
  match s with
  | [] => []
  | c :: r => if (c =? dq)%N then [] else c :: until_quote r
  end.

Fixpoint hrefs (s : list N) : list (list N) :=
  match s with
  | [] => []
  | c :: r =>
      if starts_with link_open s
      then until_quote (drop (length link_open - 1) r) :: hrefs r
      else hrefs r
  end.

(** [free_of c s]: the character [c] does not occur in [s]. *)
Definition free_of (c : N) (s : list N) : bool :=
  forallb (fun x => negb (x =? c)%N) s.



(** *** Devices for reading a markup string *)

(** [mismatch p s]: [p] and [s] differ at a position both have, so that
    no extension of [s] starts with [p]. *)
Fixpoint mismatch (p s : list N) : bool :=
  match p, s with
  | c :: p', d :: s' => if (c =? d)%N then mismatch p' s' else true
  | _, _ => false
  end.

(** [inert s]: no link is opened inside [s], whatever follows [s]. *)
Fixpoint inert (s : list N) : bool :=
  match s with
  | [] => true
  | _ :: r => mismatch link_open s && inert r
  end.


(** ** The markup handed to the browser *)

(** [s.replace(old, new)] for a non-empty [old]: the occurrences are
    replaced from the left and do not overlap.  [skip] counts the
    characters of a replaced occurrence still to pass over. *)
Fixpoint replace_from (old new : list N) (skip : nat) (s : list N) : list N :=
  match s with
  | [] => []
  | c :: r =>
      match skip with
      | S k => replace_from old new k r
      | O =>
          if starts_with old s
          then new ++ replace_from old new (length old - 1) r
          else c :: replace_from old new 0 r
      end
  end.

Definition replace (old new s : list N) : list N := replace_from old new 0 s.

(** [mathjax_and_styles] (lines 186-207 of the TOC script). *)
Definition mathjax_and_styles (color : list N) : list N :=
  nl ::
  py "    <script>" ++ nl ::
  py "    MathJax = {" ++ nl ::
  py "      tex: {" ++ nl ::
  py "        inlineMath: [['$', '$'], ['\\(', '\\)']]," ++ nl ::
  py "        displayMath: [['$$', '$$'], ['\\[', '\\]']]," ++ nl ::
  py "        processEscapes: true," ++ nl ::
  py "        processEnvironments: true" ++ nl ::
  py "      }," ++ nl ::
  py "      options: {" ++ nl ::
  py "        skipHtmlTags: ['script', 'noscript', 'style', 'textarea', 'pre']" ++ nl ::
  py "      }" ++ nl ::
  py "    };" ++ nl ::
  py "    </script>" ++ nl ::
  py "    <script id=" ++ dq :: py "MathJax-script" ++ dq :: py " async src=" ++ dq :: py "https://cdn.jsdelivr.net/npm/mathjax@3/es5/tex-mml-chtml.js" ++ dq :: py "></script>" ++ nl ::
  py "    <style>" ++ nl ::
  py "        html { scroll-behavior: smooth; }" ++ nl ::
  py "        @media print { #table-of-contents { page-break-after: always; } }" ++ nl ::
  py "        .anchor-link { display: none !important; }" ++ nl ::
  py "        h1, h2, h3, h4 { color: " ++ color ++ py " !important; }" ++ nl ::
  py "    </style>" ++ nl ::
  py "    ".

(** [mathjax_config] (lines 34-49 of the basic script). *)
Definition mathjax_config : list N :=
  nl ::
  py "    <script>" ++ nl ::
  py "    MathJax = {" ++ nl ::
  py "      tex: {" ++ nl ::
  py "        inlineMath: [['$', '$'], ['\\(', '\\)']]," ++ nl ::
  py "        displayMath: [['$$', '$$'], ['\\[', '\\]']]," ++ nl ::
  py "        processEscapes: true," ++ nl ::
  py "        processEnvironments: true" ++ nl ::
  py "      }," ++ nl ::
  py "      options: {" ++ nl ::
  py "        skipHtmlTags: ['script', 'noscript', 'style', 'textarea', 'pre']" ++ nl ::
  py "      }" ++ nl ::
  py "    };" ++ nl ::
  py "    </script>" ++ nl ::
  py "    <script id=" ++ dq :: py "MathJax-script" ++ dq :: py " async src=" ++ dq :: py "https://cdn.jsdelivr.net/npm/mathjax@3/es5/tex-mml-chtml.js" ++ dq :: py "></script>" ++ nl ::
  py "    ".

(** The script given to [page.evaluate]. *)
Definition typeset_script : list N :=
  py "async () => {" ++ nl ::
  py "                    if (MathJax.typesetPromise) {" ++ nl ::
  py "                        await MathJax.typesetPromise();" ++ nl ::
  py "                    }" ++ nl ::
  py "                }".

(** bs4 as the scripts use it: [BeautifulSoup(markup, 'html.parser')] gives
    the children of the parsed document, [str(soup)] serializes them. *)
Class Bs4 : Type := {
  parse : list N -> list node;
  decode : list node -> list N
}.

(** [tag.insert(position, soup)]: bs4 inserts the children of an inserted
    [BeautifulSoup] object one by one at the position (the position being
    capped by the number of children). *)
Definition tag_insert (position : nat) (new_children contents : list node) : list node :=
  take position contents ++ new_children ++ drop position contents.

Section MutateFirst.

Variable name : list N.
Variable f : list node -> list node.

(** A mutation [f] of the contents of the first tag called [name], in
    document order: what a method called on the tag that [find] returned
    does to the soup.  [None] when there is no such tag. *)
Fixpoint mutate_first_node (n : node) : option node :=
  match n with
  | NavigableString _ => None
  | Tag nm a cs =>
      if bool_decide (nm = name) then Some (Tag nm a (f cs))
      else
        Tag nm a <$>
          (fix mutate_first (l : list node) : option (list node) :=
             match l with
             | [] => None
             | c :: r =>
                 match mutate_first_node c with
                 | Some c' => Some (c' :: r)
                 | None => cons c <$> mutate_first r
                 end
             end) cs
  end.

Fixpoint mutate_first (l : list node) : option (list node) :=
  match l with
  | [] => None
  | c :: r =>
      match mutate_first_node c with
      | Some c' => Some (c' :: r)
      | None => cons c <$> mutate_first r
      end
  end.

End MutateFirst.

(** What [mutate_first_node] does, told by [find]. *)
Definition mutates_first (name : list N) (f : list node -> list node)
    (n : node) : Prop :=
  (head (List.filter (name_in [name]) (self_and_descendants n)) = None ->
   mutate_first_node name f n = None)
  /\ (forall nm a cs,
        head (List.filter (name_in [name]) (self_and_descendants n))
          = Some (Tag nm a cs) ->
        exists n', mutate_first_node name f n = Some n'
          /\ head (List.filter (name_in [name]) (self_and_descendants n'))
             = Some (Tag nm a (f cs))).

(** Lines 177-182: the TOC, then the title page, go to the front of the
    body, when there is one. *)
Definition insert_fragments (title_soup toc_soup soup : list node) : list node :=
  match find (py "body") soup with
  | Some body_tag =>
      default soup
        (mutate_first (py "body")
           (fun contents => tag_insert 0 title_soup (tag_insert 0 toc_soup contents)) soup)
  | None => soup
  end.

Section Augmentation.

Context {U : Unicode} {B : Bs4}.

(** Lines 170-182: the number of headings found and the soup with the
    fragments in place. *)
Definition augment (html_content title subtitle color : list N)
  : nat * list node :=
  let '(headings, soup) := extract_headings (parse html_content) in
  let title_html := generate_title_page title subtitle color in
  let toc_html := generate_toc headings color in
  (length headings, insert_fragments (parse title_html) (parse toc_html) soup).

(** Lines 184-209: the markup written to the temporary file. *)
Definition augmented_markup (html_content title subtitle color : list N) : list N :=
  replace (py "</head>") (mathjax_and_styles color ++ nl :: py "</head>")
    (decode (snd (augment html_content title subtitle color))).

End Augmentation.

(** ** The world of a run *)

(** The external calls of a run, in the order they are made. *)
Inductive call : Type :=
| Printed (line : list N)
| PrintedSize (path : list N)               (* the line with [stat().st_size] *)
| Nbconvert (notebook : list N)          (* [subprocess.run(..., check=True)] *)
| FileRead (path : list N)
| FileWrite (path : list N)
| Playwright                              (* entering [async_playwright()] *)
| PlaywrightStop                          (* leaving it *)
| Launch
| NewPage
| Goto (url : list N)
| WaitForFunction (expression : list N) (timeout : Z)
| WaitForTimeout (ms : Z)
| Evaluate (script : list N)
| Pdf (path : list N) (no_header_footer : bool)
| BrowserClose.

#[global] Instance call_eq_dec : EqDecision call.
Proof. solve_decision. Defined.

Inductive exn : Type :=
| CalledProcessError
| OSError
| PlaywrightError (message : list N)
| SystemExit (code : Z).

(** What the outside does in a run: which call raises (and with what
    message), what the converter writes, what the browser prints. *)
Record env : Type := {
  raises : call -> option (list N);
  converter_output : list N;
  pdf_bytes : list N
}.

Record world : Type := World {
  files : gmap (list N) (list N);
  trace : list call
}.

Inductive result (A : Type) : Type :=
| Val (a : A)
| Exc (e : exn).
Arguments Val {A} a.
Arguments Exc {A} e.

Definition M (A : Type) : Type := world -> result A * world.

Definition ret {A} (a : A) : M A := fun w => (Val a, w).

Definition bind {A B} (m : M A) (k : A -> M B) : M B :=
  fun w => match m w with
           | (Val a, w') => k a w'
           | (Exc e, w') => (Exc e, w')
           end.

Definition raise {A} (e : exn) : M A := fun w => (Exc e, w).

Notation "'let!' x ':=' m 'in' k" := (bind m (fun x => k))
  (at level 10, x name, k at level 200).
Notation "m ;; k" := (bind m (fun _ => k))
  (at level 100, k at level 200, right associativity).

(** [try: body finally: cleanup]. *)
Definition try_finally {A} (body : M A) (cleanup : M unit) : M A :=
  fun w => match body w with
           | (r, w') =>
               match cleanup w' with
               | (Val _, w'') => (r, w'')
               | (Exc e, w'') => (Exc e, w'')
               end
           end.

(** [try: body except Exception as e: handler(e)]: [SystemExit] is not an
    [Exception]. *)
Definition try_except (body : M unit) (handler : exn -> M unit) : M unit :=
  fun w => match body w with
           | (Exc (SystemExit c), w') => (Exc (SystemExit c), w')
           | (Exc e, w') => handler e w'
           | (Val a, w') => (Val a, w')
           end.

Definition log (c : call) : M unit :=
  fun w => (Val tt, World (files w) (trace w ++ [c])).

Definition set_file (path content : list N) : M unit :=
  fun w => (Val tt, World (<[path := content]> (files w)) (trace w)).

(** [path.exists()] and [path.unlink()]. *)
Definition exists_ (path : list N) : M bool :=
  fun w => (Val (bool_decide (is_Some (files w !! path))), w).

Definition unlink (path : list N) : M unit :=
  fun w => match files w !! path with
           | Some _ => (Val tt, World (delete path (files w)) (trace w))
           | None => (Exc OSError, w)
           end.

(** [str(e)] *)
Definition exn_str (e : exn) : list N :=
  match e with
  | PlaywrightError msg => msg
  | _ => []
  end.

(** pathlib, on paths written as their [str]. *)
Class Pathlib : Type := {
  Path : list N -> list N;
  with_suffix : list N -> list N -> list N;
  parent : list N -> list N;
  stem : list N -> list N;
  joinpath : list N -> list N -> list N;
  absolute : list N -> list N
}.

Section Pipeline.

Context {U : Unicode} {B : Bs4} {P : Pathlib}.
Variable E : env.

(** [notebook_path.with_suffix('.html')] *)
Definition html_path_of (notebook_path : list N) : list N :=
  with_suffix notebook_path (py ".html").

(** [html_path.parent / f"{html_path.stem}_toc.html"] and its like of the
    basic script. *)
Definition toc_temp_of (html_path : list N) : list N :=
  joinpath (parent html_path) (stem html_path ++ py "_toc.html").

Definition mathjax_temp_of (html_path : list N) : list N :=
  joinpath (parent html_path) (stem html_path ++ py "_mathjax.html").

(** A call that may raise. *)
Definition external (c : call) (e : list N -> exn) : M unit :=
  log c ;;
  match raises E c with
  | Some msg => raise (e msg)
  | None => ret tt
  end.

Definition print (line : list N) : M unit := log (Printed line).

(** [subprocess.run([sys.executable, '-m', 'nbconvert', '--to', 'html',
    str(notebook_path)], check=True)]: on success the converter has left
    its markup beside the notebook. *)
Definition nbconvert (notebook_path : list N) : M unit :=
  external (Nbconvert notebook_path) (fun _ => CalledProcessError) ;;
  set_file (html_path_of notebook_path) (converter_output E).

(** [open(path, 'r').read()] and [open(path, 'w').write(content)]. *)
Definition read_file (path : list N) : M (list N) :=
  external (FileRead path) (fun _ => OSError) ;;
  fun w => match files w !! path with
           | Some content => (Val content, w)
           | None => (Exc OSError, w)
           end.

Definition write_file (path content : list N) : M unit :=
  external (FileWrite path) (fun _ => OSError) ;;
  set_file path content.

Definition page (c : call) : M unit := external c PlaywrightError.

(** The warning printed for a failure with the given message. *)
Definition warning (msg : list N) : call :=
  Printed (py "Warning: MathJax loading issue: " ++ msg).

(** The wait for MathJax (lines 223-234 of the TOC script, 65-76 of the
    basic one). *)
Definition wait_for_mathjax : M unit :=
  try_except
    (page (WaitForFunction (py "typeof MathJax !== 'undefined'") 15000) ;;
     page (WaitForTimeout 2000) ;;
     page (Evaluate typeset_script) ;;
     page (WaitForTimeout 3000))
    (fun e =>
       log (warning (exn_str e)) ;;
       page (WaitForTimeout 5000)).

(** The [async with async_playwright()] block (lines 216-243 of the TOC
    script, 58-84 of the basic one, which differ by the
    [display_header_footer=False] of [page.pdf]). *)
Definition render (temp_html pdf_path : list N) (no_header_footer : bool) : M unit :=
  page Playwright ;;
  try_finally
    (page Launch ;;
     page NewPage ;;
     page (Goto (py "file://" ++ absolute temp_html)) ;;
     wait_for_mathjax ;;
     page (Pdf pdf_path no_header_footer) ;;
     set_file pdf_path (pdf_bytes E) ;;
     page BrowserClose)
    (log PlaywrightStop).

(** [if path.exists(): path.unlink()] *)
Definition unlink_if_exists (path : list N) : M unit :=
  let! b := exists_ path in if b then unlink path else ret tt.

(** [convert_to_pdf_with_toc] (TOC script). *)
Definition convert_to_pdf_with_toc
    (notebook_path pdf_path title subtitle color : list N) : M unit :=
  let html_path := html_path_of notebook_path in
  nbconvert notebook_path ;;
  let! html_content := read_file html_path in
  print (py "Found "
         ++ str_of_int (Z.of_nat (fst (augment html_content title subtitle color)))
         ++ py " headings") ;;
  let temp_html := toc_temp_of html_path in
  write_file temp_html (augmented_markup html_content title subtitle color) ;;
  try_finally
    (render temp_html pdf_path true)
    (unlink_if_exists temp_html ;; unlink_if_exists html_path).

(** The arguments argparse hands to [main] of the TOC script. *)
Record toc_args : Type := {
  notebook : list N;
  output : option (list N);
  title : list N;
  subtitle : list N;
  color : list N
}.

(** [Path(args.output) if args.output else notebook_path.with_suffix('.pdf')] *)
Definition pdf_path_of (out : option (list N)) (notebook_path : list N) : list N :=
  if truthy out then Path (default [] out) else with_suffix notebook_path (py ".pdf").

(** The last line a run prints; [stat()] raises on a missing file. *)
Definition print_size (pdf_path : list N) : M unit :=
  let! b := exists_ pdf_path in
  if b then log (PrintedSize pdf_path) else raise OSError.

Definition check_mark : N := 10003%N.   (* U+2713 *)

(** [main] of the TOC script, after the parsing of the arguments. *)
Definition main_toc (args : toc_args) : M unit :=
  let notebook_path := Path (notebook args) in
  let! b := exists_ notebook_path in
  if negb b then
    print (py "Error: " ++ notebook_path ++ py " not found") ;;
    raise (SystemExit 1)
  else
    let pdf_path := pdf_path_of (output args) notebook_path in
    print (py "Converting " ++ notebook_path ++ py " to PDF with TOC...") ;;
    convert_to_pdf_with_toc notebook_path pdf_path
      (title args) (subtitle args) (color args) ;;
    print (nl :: check_mark :: py " PDF with TOC created: " ++ pdf_path) ;;
    print_size pdf_path.

(** [convert_html_to_pdf] (basic script). *)
Definition convert_html_to_pdf (html_path pdf_path : list N) : M unit :=
  let! html_content := read_file html_path in
  let html_content :=
    replace (py "</head>") (mathjax_config ++ nl :: py "</head>") html_content in
  let temp_html := mathjax_temp_of html_path in
  write_file temp_html html_content ;;
  try_finally
    (render temp_html pdf_path false)
    (unlink_if_exists temp_html).

(** [convert_notebook_to_html] (basic script). *)
Definition convert_notebook_to_html (notebook_path : list N) : M (list N) :=
  let html_path := html_path_of notebook_path in
  nbconvert notebook_path ;;
  ret html_path.

(** [main] of the basic script, on its two positional arguments.  The
    characters before [PDF created] are those of the source file. *)
Definition main_basic (notebook_arg : list N) (output_arg : option (list N)) : M unit :=
  let notebook_path := Path notebook_arg in
  let! b := exists_ notebook_path in
  if negb b then
    print (py "Error: " ++ notebook_path ++ py " not found") ;;
    raise (SystemExit 1)
  else
    let pdf_path := pdf_path_of output_arg notebook_path in
    print (py "Converting " ++ notebook_path ++ py " to PDF...") ;;
    print (py "Step 1: Converting notebook to HTML...") ;;
    let! html_path := convert_notebook_to_html notebook_path in
    print (py "Step 2: Rendering MathJax and generating PDF...") ;;
    convert_html_to_pdf html_path pdf_path ;;
    unlink html_path ;;
    print (nl :: 226%N :: 339%N :: 8220%N :: py " PDF created: " ++ pdf_path) ;;
    print_size pdf_path.

(** The calls inside the [try] of the wait for MathJax. *)
Definition try_body_calls : list call :=
  [WaitForFunction (py "typeof MathJax !== 'undefined'") 15000;
   WaitForTimeout 2000; Evaluate typeset_script; WaitForTimeout 3000].

(** The wait for MathJax fails with the message [msg] after the calls
    [attempted]: the wait for the global times out, or the global is
    there and the typeset script raises. *)
Definition mathjax_fails (msg : list N) (attempted : list call) : Prop :=
  (raises E (WaitForFunction (py "typeof MathJax !== 'undefined'") 15000) = Some msg
   /\ attempted = [WaitForFunction (py "typeof MathJax !== 'undefined'") 15000])
  \/ (raises E (WaitForFunction (py "typeof MathJax !== 'undefined'") 15000) = None
      /\ raises E (WaitForTimeout 2000) = None
      /\ raises E (Evaluate typeset_script) = Some msg
      /\ attempted = [WaitForFunction (py "typeof MathJax !== 'undefined'") 15000;
                      WaitForTimeout 2000; Evaluate typeset_script]).

(** The world in which the rendering of the TOC script starts when the
    converter, the read and the write have returned. *)
Definition toc_ready (notebook_path title subtitle color : list N) (w : world) : world :=
  World (<[toc_temp_of (html_path_of notebook_path) :=
             augmented_markup (converter_output E) title subtitle color]>
           (<[html_path_of notebook_path := converter_output E]> (files w)))
    (trace w
     ++ [Nbconvert notebook_path; FileRead (html_path_of notebook_path);
         Printed (py "Found "
                  ++ str_of_int (Z.of_nat (fst (augment (converter_output E)
                                                  title subtitle color)))
                  ++ py " headings");
         FileWrite (toc_temp_of (html_path_of notebook_path))]).

(** The same for [convert_html_to_pdf], on a markup file holding
    [content]. *)
Definition basic_ready (html_path content : list N) (w : world) : world :=
  World (<[mathjax_temp_of html_path :=
             replace (py "</head>") (mathjax_config ++ nl :: py "</head>") content]>
           (files w))
    (trace w ++ [FileRead html_path; FileWrite (mathjax_temp_of html_path)]).

End Pipeline.

(** The exit status of the process for the outcome of [main]. *)
Definition exit_code (r : result unit) : Z :=
  match r with
  | Val _ => 0
  | Exc (SystemExit c) => c
  | Exc _ => 1
  end.

(** The Unicode database restricted to ASCII, where it is the C locale's
    table: used to evaluate the code on ASCII documents. *)
Definition ascii_isalnum (c : N) : bool :=
  ((48 <=? c) && (c <=? 57) || (65 <=? c) && (c <=? 90)
   || (97 <=? c) && (c <=? 122))%N.

Definition ascii_lower (s : list N) : list N :=
  map (fun c => if ((65 <=? c) && (c <=? 90))%N then (c + 32)%N else c) s.

Definition ascii : Unicode :=
  {| isalnum := ascii_isalnum; lower := ascii_lower |}.

(** Heading elements as the converter writes them, without and with an
    [id]. *)
Definition plain (name : string) (t : list N) : node :=
  Tag (py name) ∅ [NavigableString t].

Definition with_id (name : string) (i t : list N) : node :=
  Tag (py name) {[ id_key := i ]} [NavigableString t].

(** pathlib on a bare file name of the working directory [/work]. *)
Fixpoint past_dot (s : list N) : list N :=
  match s with
  | [] => []
  | c :: r => if (c =? 46)%N then r else past_dot r
  end.

Definition bare_stem (name : list N) : list N :=
  match past_dot (rev name) with
  | [] => name
  | r => rev r
  end.

Definition bare_names : Pathlib := {|
  Path := fun s => s;
  with_suffix := fun p suffix => bare_stem p ++ suffix;
  parent := fun _ => py ".";
  stem := bare_stem;
  joinpath := fun d name => if bool_decide (d = py ".") then name
                            else d ++ 47%N :: name;
  absolute := fun p => py "/work/" ++ p
|}.

(** A stand-in for bs4, to have the theorems at a concrete input: the
    markup becomes the one string of a body, and is read back from the
    strings of the soup. *)
Definition one_string_body : Bs4 := {|
  parse := fun s => [Tag (py "html") ∅ [Tag (py "body") ∅ [NavigableString s]]];
  decode := flat_map get_text
|}.

Definition no_body : Bs4 := {|
  parse := fun s => [Tag (py "div") ∅ [NavigableString s]];
  decode := flat_map get_text
|}.

(** A run in which the browser raises when asked for the PDF. *)
Definition pdf_fails : env := {|
  raises := fun c => match c with
                     | Pdf _ _ => Some (py "Target closed")
                     | _ => None
                     end;
  converter_output := py "<html><head></head><body></body></html>";
  pdf_bytes := py "%PDF"
|}.

(** A run in which the temporary markup cannot be written. *)
Definition write_fails : env := {|
  raises := fun c => match c with
                     | FileWrite _ => Some (py "Permission denied")
                     | _ => None
                     end;
  converter_output := py "<html><head></head><body></body></html>";
  pdf_bytes := py "%PDF"
|}.

(** A run in which MathJax never loads. *)
Definition mathjax_times_out : env := {|
  raises := fun c =>
    if bool_decide (c = WaitForFunction (py "typeof MathJax !== 'undefined'") 15000)
    then Some (py "Timeout 15000ms exceeded.") else None;
  converter_output := py "<html><head></head><body></body></html>";
  pdf_bytes := py "%PDF"
|}.

(** A directory holding the notebook [nb.ipynb]. *)
Definition one_notebook : world :=
  World {[ py "nb.ipynb" := py "{}" ]} [].

Definition empty_dir : world := World ∅ [].

(** The documents the code is evaluated on. *)
Definition three_steps : list node :=
  [plain "h2" (py "Step"); plain "h2" (py "Step"); plain "h2" (py "Step 1")].

Definition two_overviews : list node :=
  [plain "h1" (py "Intro"); plain "h2" (py "Overview");
   plain "h3" (py "Details"); plain "h2" (py "Overview");
   plain "h3" (py "End")].

(** Two headings "Overview", the first of which brings an [id]. *)
Definition overview_with_id : list node :=
  [with_id "h2" (py "summary") (py "Overview"); plain "h2" (py "Overview")].

Definition intro_details : list node :=
  [plain "h1" (py "Intro"); plain "h2" (py "Details");
   plain "h3" [32%N; pilcrow; 32%N]].

(** A first heading that brings its own [id], a second whose slug is
    that [id], a third with an empty [id]. *)
Definition own_ids : list node :=
  [with_id "h1" (py "overview") (py "Intro"); plain "h2" (py "Overview");
   with_id "h3" [] (py "Notes")].


Definition default_color : list N := py "#41395f".

Definition nb_args : toc_args := {|
  notebook := py "nb.ipynb";
  output := None;
  title := py "Document Title";
  subtitle := [];
  color := default_color
|}.


(** ** Notions used to state further properties *)

From Stdlib Require Import DecimalPos DecimalZ.

(** No two hyphens side by side. *)
Fixpoint no_adjacent_hyphens (s : list N) : bool :=
  match s with
  | [] => true
  | a :: r =>
      match r with
      | b :: _ => negb ((a =? hyphen)%N && (b =? hyphen)%N)
      | [] => true
      end && no_adjacent_hyphens r
  end.

(** [old in s]: [old] occurs in [s]. *)
Fixpoint occurs (old s : list N) : bool :=
  match s with
  | [] => starts_with old []
  | _ :: r => starts_with old s || occurs old r
  end.

(** No occurrence of [p] begins inside [s], whatever follows [s]. *)
Fixpoint clear_of (p s : list N) : bool :=
  match s with
  | [] => true
  | _ :: r => mismatch p s && clear_of p r
  end.

(** The anchor the counter gives to the [k]-th heading (from 0) of a
    slug: the slug itself, then the slug with [-1], [-2], ... *)
Definition suffixed (s : list N) (k : Z) : list N :=
  if k =? 0 then s else s ++ hyphen :: str_of_int k.

(** A tree with the [id] of its h1-h4 tags forgotten. *)
Fixpoint forget_heading_ids (n : node) : node :=
  match n with
  | NavigableString s => NavigableString s
  | Tag nm a cs =>
      Tag nm (if bool_decide (nm ∈ heading_names) then delete id_key a else a)
        (map forget_heading_ids cs)
  end.

(** A string that is empty or begins with a character that is not
    whitespace. *)
Definition starts_clean (s : list N) : Prop :=
  match s with
  | [] => True
  | c :: _ => isspace c = false
  end.


(** The counter after [n] headings of the slug [s]: no entry before the
    first, then the number of the last suffix given. *)
Definition seen (counter : gmap (list N) Z) (s : list N) (n : nat) : Prop :=
  match n with
  | O => counter !! s = None
  | S k => counter !! s = Some (Z.of_nat k)
  end.

Section ExtractionNotions.

Context {U : Unicode}.

(** A matched tag whose text has the slug [s]. *)
Definition has_slug (s : list N) (t : node) : bool :=
  has_text t && bool_decide (slugify (clean_text (get_text t)) = s).

End ExtractionNotions.

(** A run in which every call returns, and one in which the converter
    exits with an error. *)
Definition all_return : env := {|
  raises := fun _ => None;
  converter_output := py "<html><head></head><body></body></html>";
  pdf_bytes := py "%PDF"
|}.

Definition converter_fails : env := {|
  raises := fun c => match c with
                     | Nbconvert _ => Some (py "returned non-zero exit status 1")
                     | _ => None
                     end;
  converter_output := [];
  pdf_bytes := py "%PDF"
|}.

(** A document whose headings with text bring their [id]. *)
Definition anchored : list node :=
  [with_id "h1" (py "top") (py "Intro"); plain "h2" [pilcrow];
   with_id "h2" (py "sec-a") (py "Intro")].


(** A directory holding a markup file with a head, and one holding a
    markup file without. *)
Definition with_head : world :=
  World {[ py "nb.html" := py "<head>" ++ py "</head>" ++ py "<p>x</p>" ]} [].

Definition without_head : world :=
  World {[ py "nb.html" := py "<p>x</p>" ]} [].

(** ** Facts about the walk *)

Lemma node_ind' (P : node -> Prop) :
  (forall s, P (NavigableString s)) ->
  (forall nm a cs, Forall P cs -> P (Tag nm a cs)) ->
  forall n, P n.
Proof.
  intros Hs Ht. fix IH 1. intros [s | nm a cs].
  - apply Hs.
  - apply Ht. induction cs as [| c cs IHcs]; constructor; [apply IH | apply IHcs].
Qed.

Section ExtractionFacts.

Context {U : Unicode}.

Lemma walk_node_tag st nm a cs :
  walk_node st (Tag nm a cs) =
    let '(st1, a') :=
      if bool_decide (nm ∈ heading_names)
      then visit st nm a (flat_map get_text cs) else (st, a) in
    let '(st2, cs') := walk_list st1 cs in
    (st2, Tag nm a' cs').
Proof. reflexivity. Qed.

(** The walk changes attributes only, so the text of a node stays. *)
Lemma walk_node_get_text n :
  forall st, get_text (snd (walk_node st n)) = get_text n.
Proof.
  induction n as [s | nm a cs IH] using node_ind'; intros st; [done |].
  rewrite walk_node_tag.
  destruct (if bool_decide (nm ∈ heading_names) then _ else _) as [st1 a'].
  clear st. revert st1.
  induction IH as [| c cs Hc _ IHcs]; intros st1; [done |].
  simpl. specialize (Hc st1).
  destruct (walk_node st1 c) as [sa c']. simpl in Hc.
  specialize (IHcs sa).
  destruct (walk_list sa cs) as [sb r']. simpl in *.
  by rewrite Hc, IHcs.
Qed.

Lemma walk_list_get_text l :
  forall st, flat_map get_text (snd (walk_list st l)) = flat_map get_text l.
Proof.
  induction l as [| c r IH]; intros st; [done |].
  simpl. pose proof (walk_node_get_text c st) as Hc.
  destruct (walk_node st c) as [sa c']. specialize (IH sa).
  destruct (walk_list sa r) as [sb r']. simpl in *. by rewrite Hc, IH.
Qed.

Lemma loop_app l1 l2 st :
  loop st (l1 ++ l2) =
    let '(s1, r1) := loop st l1 in
    let '(s2, r2) := loop s1 l2 in (s2, r1 ++ r2).
Proof.
  revert st. induction l1 as [| t l1 IH]; intros st; simpl.
  - by destruct (loop st l2).
  - destruct (visit st _ _ _) as [st1 a']. rewrite IH.
    destruct (loop st1 l1) as [s1 r1]. by destruct (loop s1 l2).
Qed.

Lemma find_all_cons names c r :
  find_all names (c :: r) =
    List.filter (name_in names) (self_and_descendants c) ++ find_all names r.
Proof. unfold find_all, descendants. simpl. by rewrite List.filter_app. Qed.

Lemma matched_tag nm a cs :
  matched (Tag nm a cs) =
    (if bool_decide (nm ∈ heading_names) then [Tag nm a cs] else [])
      ++ find_all heading_names cs.
Proof.
  unfold matched, find_all, descendants. simpl.
  by destruct (bool_decide (nm ∈ heading_names)).
Qed.

Lemma walk_list_spec_of l :
  Forall (fun n => forall st,
    loop st (matched n) =
      (fst (walk_node st n), map attrs_of (matched (snd (walk_node st n))))
    /\ Forall2 same_tag (matched n) (matched (snd (walk_node st n)))) l ->
  forall st,
    loop st (find_all heading_names l) =
      (fst (walk_list st l),
       map attrs_of (find_all heading_names (snd (walk_list st l))))
    /\ Forall2 same_tag (find_all heading_names l)
         (find_all heading_names (snd (walk_list st l))).
Proof.
  induction 1 as [| c r Hc _ IH]; intros st; [by split; [| constructor] |].
  simpl. destruct (Hc st) as [Hc1 Hc2].
  destruct (walk_node st c) as [sa c']. simpl in *.
  destruct (IH sa) as [Hr1 Hr2].
  destruct (walk_list sa r) as [sb r']. simpl in *.
  rewrite !find_all_cons, loop_app. fold (matched c) (matched c').
  rewrite Hc1, Hr1, map_app. split; [done | by apply Forall2_app].
Qed.

Lemma walk_node_spec n :
  forall st,
    loop st (matched n) =
      (fst (walk_node st n), map attrs_of (matched (snd (walk_node st n))))
    /\ Forall2 same_tag (matched n) (matched (snd (walk_node st n))).
Proof.
  induction n as [s | nm a cs IH] using node_ind'; intros st.
  { by split; [| constructor]. }
  pose proof (walk_list_spec_of cs IH) as Hcs.
  pose proof (walk_list_get_text cs) as Htxt.
  rewrite walk_node_tag.
  destruct (bool_decide (nm ∈ heading_names)) eqn:Hnm.
  - destruct (visit st nm a (flat_map get_text cs)) as [st1 a'] eqn:Hv.
    destruct (Hcs st1) as [H1 H2]. specialize (Htxt st1).
    destruct (walk_list st1 cs) as [st2 cs']. simpl in *.
    rewrite !matched_tag, Hnm. simpl. rewrite Hv, H1. simpl.
    split; [done |]. constructor; [| done]. by split.
  - destruct (Hcs st) as [H1 H2].
    destruct (walk_list st cs) as [st2 cs']. simpl in *.
    rewrite !matched_tag, Hnm. by simpl.
Qed.

(** [extract_headings] is the source's loop over [find_all]: the records
    are those the loop appends, and the matched tags of the mutated soup
    carry the attributes the loop leaves them with, the names and texts
    being untouched. *)
Lemma extract_headings_loop soup :
  loop (∅, []) (find_all heading_names soup) =
    ((fst (walk_list (∅, []) soup)),
     map attrs_of (find_all heading_names (snd (extract_headings soup))))
  /\ fst (extract_headings soup) = snd (fst (walk_list (∅, []) soup))
  /\ Forall2 same_tag (find_all heading_names soup)
       (find_all heading_names (snd (extract_headings soup))).
Proof.
  destruct (walk_list_spec_of soup
              (proj2 (Forall_forall _ _) (fun n _ => walk_node_spec n))
              (∅, [])) as [H1 H2].
  unfold extract_headings.
  destruct (walk_list (∅, []) soup) as [st soup']. by simpl in *.
Qed.

(** *** Running the extraction twice *)

Lemma visit_again st nm a raw :
  visit st nm (snd (visit st nm a raw)) raw = visit st nm a raw.
Proof.
  unfold visit. destruct (clean_text raw) as [| c txt]; [done |].
  destruct (next_anchor (fst st) _) as [counter anchor_id].
  destruct (truthy (a !! id_key)) eqn:Hid; simpl; [by rewrite Hid |].
  rewrite lookup_insert_eq, insert_insert_eq.
  by destruct anchor_id.
Qed.

Lemma walk_list_again_of l :
  Forall (fun n => forall st,
    walk_node st (snd (walk_node st n)) = walk_node st n) l ->
  forall st, walk_list st (snd (walk_list st l)) = walk_list st l.
Proof.
  induction 1 as [| c r Hc _ IH]; intros st; [done |].
  simpl. specialize (Hc st).
  destruct (walk_node st c) as [sa c']. specialize (IH sa).
  destruct (walk_list sa r) as [sb r']. simpl in *.
  by rewrite Hc, IH.
Qed.

Lemma walk_node_again n :
  forall st, walk_node st (snd (walk_node st n)) = walk_node st n.
Proof.
  induction n as [s | nm a cs IH] using node_ind'; intros st; [done |].
  pose proof (walk_list_again_of cs IH) as Hcs.
  pose proof (walk_list_get_text cs) as Htxt.
  rewrite walk_node_tag.
  destruct (bool_decide (nm ∈ heading_names)) eqn:Hnm.
  - pose proof (visit_again st nm a (flat_map get_text cs)) as Hv.
    destruct (visit st nm a (flat_map get_text cs)) as [st1 a'].
    specialize (Hcs st1). specialize (Htxt st1).
    destruct (walk_list st1 cs) as [st2 cs']. cbn [fst snd] in *.
    rewrite walk_node_tag, Hnm, Htxt, Hv. by rewrite Hcs.
  - specialize (Hcs st).
    destruct (walk_list st cs) as [st2 cs']. cbn [fst snd] in *.
    rewrite walk_node_tag, Hnm. by rewrite Hcs.
Qed.

(** C5.  Heading extraction is idempotent on already-anchored markup: a
    second run on the soup the first run left behind returns that soup
    as it is, so every [id] attribute present after the first run is
    unchanged (and the second run returns the same records). *)
Theorem extract_headings_idempotent soup :
  extract_headings (snd (extract_headings soup)) = extract_headings soup.
Proof.
  pose proof (walk_list_again_of soup
                (proj2 (Forall_forall _ _) (fun n _ => walk_node_again n))
                (∅, [])) as H.
  unfold extract_headings.
  destruct (walk_list (∅, []) soup) as [st soup']. simpl in *.
  by rewrite H.
Qed.

(** *** The loop, tag by tag *)

Lemma get_id_attrs t : get_id t = attrs_of t !! id_key.
Proof. by destruct t. Qed.

Lemma get_id_fmap (l : list node) :
  get_id <$> l = (fun a : gmap (list N) (list N) => a !! id_key) <$> map attrs_of l.
Proof.
  induction l as [| t l IH]; [done |]. cbn. by rewrite IH, get_id_attrs.
Qed.

Lemma visit_skip st t :
  has_text t = false ->
  visit st (name_of t) (attrs_of t) (get_text t) = (st, attrs_of t).
Proof.
  unfold has_text, visit. by destruct (clean_text (get_text t)).
Qed.

Lemma visit_text st t :
  has_text t = true ->
  visit st (name_of t) (attrs_of t) (get_text t) =
    let txt := clean_text (get_text t) in
    let '(counter, anchor_id) := next_anchor (fst st) (slugify txt) in
    if truthy (get_id t)
    then ((counter, snd st ++ [Heading (level_of (name_of t)) txt (default [] (get_id t))]),
          attrs_of t)
    else ((counter, snd st ++ [Heading (level_of (name_of t)) txt anchor_id]),
          <[id_key := anchor_id]> (attrs_of t)).
Proof.
  rewrite get_id_attrs. unfold has_text, visit.
  by destruct (clean_text (get_text t)).
Qed.

Lemma visit_appends st t :
  exists new,
    snd (fst (visit st (name_of t) (attrs_of t) (get_text t))) = snd st ++ new
    /\ new = (if has_text t
              then [Heading (level_of (name_of t)) (clean_text (get_text t))
                      (if truthy (get_id t) then default [] (get_id t)
                       else snd (next_anchor (fst st)
                                   (slugify (clean_text (get_text t)))))]
              else []).
Proof.
  destruct (has_text t) eqn:Ht.
  - rewrite visit_text by done. cbn zeta.
    destruct (next_anchor _ _) as [counter anchor_id].
    destruct (truthy (get_id t)); eauto.
  - rewrite visit_skip by done. exists []. by rewrite app_nil_r.
Qed.

Lemma loop_appends l :
  forall st, exists new,
    snd (fst (loop st l)) = snd st ++ new
    /\ length new = length (List.filter has_text l)
    /\ length (snd (loop st l)) = length l.
Proof.
  induction l as [| t l IH]; intros st; simpl.
  { exists []. by rewrite app_nil_r. }
  destruct (visit_appends st t) as (n1 & H1 & Hn1).
  destruct (visit st _ _ _) as [st1 a']. simpl in H1.
  destruct (IH st1) as (n2 & H2 & Hlen & Hlen').
  destruct (loop st1 l) as [st2 r]. simpl in *.
  exists (n1 ++ n2). rewrite H2, H1, <- app_assoc. split; [done |].
  rewrite length_app, Hlen, Hlen', Hn1.
  by destruct (has_text t).
Qed.


(** A tag that has text and a non-empty [id] keeps its attributes, and
    its record carries that [id]. *)
Lemma loop_existing_id l :
  forall st i t v,
    l !! i = Some t -> has_text t = true ->
    get_id t = Some v -> v <> [] ->
    snd (loop st l) !! i = Some (attrs_of t)
    /\ snd (fst (loop st l))
         !! (length (snd st) + length (List.filter has_text (take i l)))%nat
       = Some (Heading (level_of (name_of t)) (clean_text (get_text t)) v).
Proof.
  induction l as [| u l IH]; intros st i t v Hi Ht Hid Hv; [done |].
  simpl. destruct (visit_appends st u) as (n1 & H1 & Hn1).
  destruct (visit st _ _ _) as [st1 a'] eqn:Hvis. simpl in H1.
  destruct (loop_appends l st1) as (n2 & H2 & _).
  specialize (IH st1). destruct (loop st1 l) as [st2 r]. simpl in *.
  destruct i as [| i]; simpl in *.
  - injection Hi as ->. rewrite visit_text in Hvis by done. cbn zeta in Hvis.
    destruct (next_anchor _ _) as [counter anchor_id].
    rewrite Hid in *. destruct v as [| c v]; [done |]. simpl in *.
    injection Hvis as <- <-. split; [done |].
    rewrite H2. simpl. rewrite Nat.add_0_r, lookup_app_l.
    + by rewrite list_lookup_middle.
    + rewrite length_app. simpl. lia.
  - destruct (IH i t v Hi Ht Hid Hv) as [IH1 IH2]. split; [done |].
    rewrite H1, length_app, Hn1 in IH2.
    destruct (has_text u); simpl in *.
    + by rewrite <- Nat.add_assoc in IH2.
    + by rewrite Nat.add_0_r in IH2.
Qed.

(** The counter entry of a slug no tag of the list has is not touched. *)
Lemma loop_counter_other l s :
  forall st,
    (forall t, t ∈ l -> has_text t = true ->
               slugify (clean_text (get_text t)) <> s) ->
    fst (fst (loop st l)) !! s = fst st !! s.
Proof.
  induction l as [| u l IH]; intros st Hl; [done |].
  simpl. destruct (visit st _ _ _) as [st1 a'] eqn:Hvis.
  assert (fst (fst (loop st1 l)) !! s = fst st1 !! s) as IH1.
  { apply IH. intros; apply Hl; [by right | done]. }
  destruct (loop st1 l) as [st2 r]. simpl in *. rewrite IH1. clear IH IH1.
  destruct (has_text u) eqn:Hu.
  - rewrite visit_text in Hvis by done. cbn zeta in Hvis.
    specialize (Hl u (list_elem_of_here _ _) Hu).
    unfold next_anchor in Hvis.
    destruct (fst st !! slugify _) eqn:Hc;
      destruct (truthy (get_id u)); injection Hvis as <- _; simpl;
      by rewrite lookup_insert_ne.
  - rewrite visit_skip in Hvis by done. by injection Hvis as <- _.
Qed.

Lemma slugify_overview :
  lower (py "Overview") = py "overview" ->
  forallb isalnum (py "overview") = true ->
  slugify (py "Overview") = py "overview".
Proof.
  intros Hlow Halnum. unfold slugify, isword. rewrite Hlow.
  cbn in Halnum. repeat (apply andb_prop in Halnum as [? Halnum]).
  cbn. by repeat match goal with H : isalnum _ = true |- _ => rewrite H; clear H end.
Qed.

(** C3, as amended.  A heading element with text that carries a
    non-empty [id] when the extraction runs gets a record with that
    identifier verbatim, at the position of the element among the
    headings with text, and the element's attributes are left as they
    were. *)
Theorem existing_id_reused soup i t v :
  find_all heading_names soup !! i = Some t ->
  has_text t = true ->
  get_id t = Some v ->
  v <> [] ->
  fst (extract_headings soup) !! record_index soup i
    = Some (Heading (level_of (name_of t)) (clean_text (get_text t)) v)
  /\ attrs_of <$> (find_all heading_names (snd (extract_headings soup)) !! i)
     = Some (attrs_of t).
Proof.
  intros Hi Ht Hid Hv.
  destruct (extract_headings_loop soup) as (Hl & Hhs & _).
  destruct (loop_existing_id _ (∅, []) i t v Hi Ht Hid Hv) as [H1 H2].
  rewrite Hl in H1, H2. simpl in H1, H2. rewrite Hhs. split; [done |].
  by rewrite <- list_lookup_fmap.
Qed.

(** C4, as amended.  Two headings with the text "Overview" that carry
    no [id] of their own (none, or an empty one), no heading met before
    the first or between the two having the slug [overview]: their
    records carry the anchors [overview] and [overview-1], in document
    order, whatever headings stand between them, and these become the
    [id] attributes of the two elements. *)
Theorem overview_twice soup pre a mid b post :
  lower (py "Overview") = py "overview" ->
  forallb isalnum (py "overview") = true ->
  find_all heading_names soup = pre ++ a :: mid ++ b :: post ->
  (forall t, t ∈ pre ++ mid -> has_text t = true ->
     slugify (clean_text (get_text t)) <> py "overview") ->
  clean_text (get_text a) = py "Overview" ->
  clean_text (get_text b) = py "Overview" ->
  truthy (get_id a) = false ->
  truthy (get_id b) = false ->
  (exists hpre hmid hpost,
     fst (extract_headings soup) =
       hpre ++ Heading (level_of (name_of a)) (py "Overview") (py "overview")
            :: hmid ++ Heading (level_of (name_of b)) (py "Overview") (py "overview-1")
            :: hpost
     /\ length hpre = length (List.filter has_text pre)
     /\ length hmid = length (List.filter has_text mid))
  /\ get_id <$> (find_all heading_names (snd (extract_headings soup)) !! length pre)
     = Some (Some (py "overview"))
  /\ get_id <$> (find_all heading_names (snd (extract_headings soup))
                   !! S (length pre + length mid))
     = Some (Some (py "overview-1")).
Proof.
  intros Hlow Halnum Hfind Hother Ha Hb Hida Hidb.
  pose proof (slugify_overview Hlow Halnum) as Hslug.
  destruct (extract_headings_loop soup) as (Hl & Hhs & _).
  rewrite Hfind, loop_app in Hl.
  pose proof (loop_counter_other pre (py "overview") (∅, [])) as Hfresh.
  destruct (loop_appends pre (∅, [])) as (hpre & Hhpre & Hlen & Hlen').
  destruct (loop (∅, []) pre) as [s1 r1]. cbn [fst snd] in Hfresh, Hhpre, Hlen'.
  rewrite lookup_empty in Hfresh.
  assert (fst s1 !! py "overview" = None) as Hnew.
  { apply Hfresh. intros t Ht. apply Hother, elem_of_app. by left. }
  cbn [loop] in Hl.
  assert (has_text a = true) as Hta by (unfold has_text; by rewrite Ha).
  assert (has_text b = true) as Htb by (unfold has_text; by rewrite Hb).
  rewrite visit_text in Hl by done. cbn zeta in Hl.
  rewrite Ha, Hslug, Hida in Hl. unfold next_anchor in Hl at 1.
  rewrite Hnew in Hl. rewrite loop_app in Hl.
  match type of Hl with context [loop ?st mid] =>
    pose proof (loop_counter_other mid (py "overview") st) as Hkept;
    destruct (loop_appends mid st) as (hmid & Hhmid & Hlenm & Hlenm');
    destruct (loop st mid) as [s2 r2] end.
  cbn [fst snd] in Hkept, Hhmid, Hlenm'.
  rewrite lookup_insert_eq in Hkept.
  assert (fst s2 !! py "overview" = Some 0) as Hseen.
  { apply Hkept. intros t Ht. apply Hother, elem_of_app. by right. }
  cbn [loop] in Hl.
  rewrite visit_text in Hl by done. cbn zeta in Hl.
  rewrite Hb, Hslug, Hidb in Hl. unfold next_anchor in Hl. rewrite Hseen in Hl.
  match type of Hl with context [loop ?st post] =>
    destruct (loop_appends post st) as (hpost & Hhpost & _);
    destruct (loop st post) as [s4 r4] end.
  cbn [fst snd] in Hhpost. apply pair_equal_spec in Hl as [Hs4 Hr].
  split; [| split].
  - exists hpre, hmid, hpost. rewrite Hhs, <- Hs4, Hhpost, Hhmid, Hhpre.
    cbn [app fst snd]. split; [| done].
    by rewrite <- !app_assoc.
  - rewrite <- list_lookup_fmap, get_id_fmap, <- Hr.
    rewrite list_lookup_fmap, lookup_app_r by lia.
    rewrite Hlen', Nat.sub_diag. cbn [lookup list_lookup fmap option_fmap option_map].
    by rewrite lookup_insert_eq.
  - rewrite <- list_lookup_fmap, get_id_fmap, <- Hr.
    rewrite list_lookup_fmap, lookup_app_r by lia.
    replace (S (length pre + length mid) - length r1)%nat
      with (S (length mid)) by lia.
    rewrite app_comm_cons, lookup_app_r by (cbn [length]; lia).
    cbn [length]. rewrite Hlenm', Nat.sub_diag.
    cbn [lookup list_lookup fmap option_fmap option_map].
    by rewrite lookup_insert_eq.
Qed.

End ExtractionFacts.

(** ** Facts about the table of contents *)

Lemma mismatch_starts_with p :
  forall s y, mismatch p s = true -> starts_with p (s ++ y) = false.
Proof.
  induction p as [| c p IH]; intros [| d s] y H; try done.
  simpl in *. destruct (c =? d)%N; [by apply IH | done].
Qed.

Lemma hrefs_app_inert x y : inert x = true -> hrefs (x ++ y) = hrefs y.
Proof.
  induction x as [| c x IH]; [done |].
  intros [Hc Hx]%andb_prop.
  change ((c :: x) ++ y) with (c :: (x ++ y)).
  change (hrefs (c :: x ++ y))
    with (if starts_with link_open (c :: x ++ y)
          then until_quote (drop (length link_open - 1) (x ++ y)) :: hrefs (x ++ y)
          else hrefs (x ++ y)).
  change (c :: x ++ y) with ((c :: x) ++ y).
  rewrite (mismatch_starts_with _ _ _ Hc). by apply IH.
Qed.

Lemma inert_app x y : inert x = true -> inert y = true -> inert (x ++ y) = true.
Proof.
  intros Hx Hy. induction x as [| c x IH]; [done |].
  apply andb_prop in Hx as [Hc Hx].
  change (inert ((c :: x) ++ y))
    with (mismatch link_open ((c :: x) ++ y) && inert (x ++ y)).
  rewrite IH by done. rewrite andb_true_r.
  clear -Hc. revert Hc. generalize (c :: x). generalize link_open.
  induction l as [| a p IH]; intros [| d s] H; try done.
  simpl in *. destruct (a =? d)%N; [by apply IH | done].
Qed.

Lemma free_of_inert x : free_of lt_sign x = true -> inert x = true.
Proof.
  induction x as [| c x IH]; [done |].
  intros [Hc Hx]%andb_prop.
  change (inert (c :: x)) with (mismatch link_open (c :: x) && inert x).
  rewrite IH by done. rewrite andb_true_r.
  change (mismatch link_open (c :: x))
    with (if (lt_sign =? c)%N then mismatch (tl link_open) x else true).
  rewrite N.eqb_sym. by destruct (c =? lt_sign)%N.
Qed.




Lemma free_of_str_of_int z : free_of lt_sign (str_of_int z) = true.
Proof.
  unfold str_of_int.
  assert (forall u, free_of lt_sign (py (NilEmpty.string_of_uint u)) = true) as Hu.
  { induction u; simpl; try done. }
  assert (forall u, free_of lt_sign (py (NilZero.string_of_uint u)) = true) as Hz.
  { intros []; try done; apply Hu. }
  destruct (Z.to_int z); simpl; [apply Hz |].
  apply Hz.
Qed.

Lemma inert_cons c x : inert [c] = true -> inert x = true -> inert (c :: x) = true.
Proof. apply (inert_app [c] x). Qed.

Ltac inert_chain :=
  repeat match goal with
    | |- inert (str_of_int _ ++ _) = true =>
        apply inert_app; [apply free_of_inert, free_of_str_of_int |]
    | |- inert (str_of_int _) = true => apply free_of_inert, free_of_str_of_int
    | |- inert (py _ ++ _) = true => apply inert_app; [vm_compute; reflexivity |]
    | |- inert (py _) = true => vm_compute; reflexivity
    | |- inert (_ :: _) = true => apply inert_cons; [reflexivity |]
    | |- inert [] = true => reflexivity
    | |- inert (_ ++ _) = true =>
        apply inert_app; [first [assumption | apply free_of_inert; assumption] |]
    | |- inert _ = true => first [assumption | apply free_of_inert; assumption]
    end.







Section TocFacts.

Context {U : Unicode}.


End TocFacts.

(** ** The code on ASCII documents *)

(** C1.  The headings "Step", "Step", "Step 1" get the anchors [step],
    [step-1] and [step-1]: the suffixed anchor of the second collides
    with the slug of the third, which is new to the counter.  The anchors
    of the records are not pairwise distinct, and two elements end with
    the same [id]. *)
Theorem anchors_collide :
  map anchor (fst (extract_headings (U := ascii) three_steps))
    = [py "step"; py "step-1"; py "step-1"]
  /\ ~ NoDup (map anchor (fst (extract_headings (U := ascii) three_steps)))
  /\ map get_id (find_all heading_names
                   (snd (extract_headings (U := ascii) three_steps)))
     = [Some (py "step"); Some (py "step-1"); Some (py "step-1")].
Proof.
  split; [vm_compute; reflexivity |].
  split; [| vm_compute; reflexivity].
  apply (proj1 (bool_decide_eq_false _)). vm_compute. reflexivity.
Qed.

(** ** Facts about the pipeline *)

Section PipelineFacts.

Context {U : Unicode} {B : Bs4} {P : Pathlib}.
Variable E : env.

Lemma bind_run {X Y} (m : M X) (k : X -> M Y) w :
  bind m k w = match m w with
               | (Val a, w') => k a w'
               | (Exc e, w') => (Exc e, w')
               end.
Proof. reflexivity. Qed.

Lemma external_returns c e w :
  raises E c = None ->
  external E c e w = (Val tt, World (files w) (trace w ++ [c])).
Proof. intros H. unfold external, bind, log. cbn. by rewrite H. Qed.

Lemma external_raises c e w msg :
  raises E c = Some msg ->
  external E c e w = (Exc (e msg), World (files w) (trace w ++ [c])).
Proof. intros H. unfold external, bind, log. cbn. by rewrite H. Qed.

(** One step of a run whose calls are known to return. *)
Ltac run_step :=
  first [ rewrite bind_run
        | rewrite external_returns by done
        | progress unfold set_file, log
        | progress cbn [files trace] ].

(** C8.  When the source path does not exist, [main] of either script
    prints the error and exits with status 1; that print is the only call
    it makes (the converter is not invoked) and the files are as they
    were. *)
Theorem missing_source args notebook_arg output_arg w :
  files w !! Path (notebook args) = None ->
  files w !! Path notebook_arg = None ->
  main_toc E args w =
    (Exc (SystemExit 1),
     World (files w)
       (trace w ++ [Printed (py "Error: " ++ Path (notebook args) ++ py " not found")]))
  /\ main_basic E notebook_arg output_arg w =
    (Exc (SystemExit 1),
     World (files w)
       (trace w ++ [Printed (py "Error: " ++ Path notebook_arg ++ py " not found")]))
  /\ exit_code (Exc (SystemExit 1)) <> 0.
Proof.
  intros Ht Hb. unfold main_toc, main_basic, bind, exists_.
  rewrite Ht, Hb. done.
Qed.

(** The wait for MathJax never raises what it meets: on a timeout of the
    wait, or on an error of the evaluation, the warning is printed and the
    5000 ms wait is made. *)
Lemma wait_for_mathjax_recovers msg attempted w :
  mathjax_fails E msg attempted ->
  raises E (WaitForTimeout 5000) = None ->
  wait_for_mathjax E w =
    (Val tt, World (files w)
               (trace w ++ attempted ++ [warning msg; WaitForTimeout 5000])).
Proof.
  intros [[Hto ->] | (Hwait & Hgrace & Heval & ->)] Hfallback.
  - unfold wait_for_mathjax, try_except, page, print, bind at 1.
    rewrite (external_raises _ _ _ msg) by done.
    unfold bind, log. cbn [files trace exn_str].
    rewrite external_returns by done. cbn [files trace].
    by rewrite <- !app_assoc.
  - unfold wait_for_mathjax, try_except, page, print, bind.
    rewrite external_returns by done.
    rewrite external_returns by done.
    rewrite (external_raises _ _ _ msg) by done.
    unfold log. cbn [files trace exn_str].
    rewrite external_returns by done. cbn [files trace].
    by rewrite <- !app_assoc.
Qed.

(** The rendering block then goes on to [page.pdf] and returns without an
    exception, the PDF written. *)
Lemma render_recovers temp_html pdf_path no_header_footer w msg attempted :
  raises E Playwright = None ->
  raises E Launch = None ->
  raises E NewPage = None ->
  raises E (Goto (py "file://" ++ absolute temp_html)) = None ->
  mathjax_fails E msg attempted ->
  raises E (WaitForTimeout 5000) = None ->
  raises E (Pdf pdf_path no_header_footer) = None ->
  raises E BrowserClose = None ->
  render E temp_html pdf_path no_header_footer w =
    (Val tt,
     World (<[pdf_path := pdf_bytes E]> (files w))
       (trace w
        ++ [Playwright; Launch; NewPage; Goto (py "file://" ++ absolute temp_html)]
        ++ attempted
        ++ [warning msg; WaitForTimeout 5000;
            Pdf pdf_path no_header_footer; BrowserClose; PlaywrightStop])).
Proof.
  intros Hpw Hlaunch Hpage Hgoto Hfail Hfallback Hpdf Hclose.
  unfold render, try_finally, page.
  repeat run_step.
  rewrite (wait_for_mathjax_recovers msg attempted) by done.
  repeat run_step.
  by rewrite <- !app_assoc.
Qed.

(** *** Cleaning up *)

Lemma unlink_if_exists_run path w :
  unlink_if_exists path w = (Val tt, World (delete path (files w)) (trace w)).
Proof.
  unfold unlink_if_exists, exists_, unlink, ret. rewrite bind_run.
  destruct (files w !! path) as [c |] eqn:Hf.
  - rewrite bool_decide_eq_true_2 by done. by rewrite Hf.
  - rewrite bool_decide_eq_false_2 by (by intros [? ?]).
    rewrite delete_id by done. by destruct w.
Qed.

(** Whatever the rendering does, the [finally] of the TOC script leaves
    neither markup file behind. *)
Lemma toc_finally_cleans (body : M unit) temp_html html_path w :
  let r := try_finally body
             (unlink_if_exists temp_html ;; unlink_if_exists html_path) w in
  files (snd r) !! temp_html = None /\ files (snd r) !! html_path = None.
Proof.
  unfold try_finally. destruct (body w) as [r w'].
  rewrite bind_run, !unlink_if_exists_run. cbn [files trace snd].
  split; [| apply lookup_delete_eq].
  destruct (decide (html_path = temp_html)) as [-> | Hne].
  - apply lookup_delete_eq.
  - rewrite lookup_delete_ne by done. apply lookup_delete_eq.
Qed.

(** The TOC script, once the converter, the read and the write have
    returned: the rendering runs in [toc_ready], and whatever it does,
    both markup files are deleted after it. *)
Lemma convert_to_pdf_with_toc_run notebook_path pdf_path title subtitle color w :
  raises E (Nbconvert notebook_path) = None ->
  raises E (FileRead (html_path_of notebook_path)) = None ->
  raises E (FileWrite (toc_temp_of (html_path_of notebook_path))) = None ->
  convert_to_pdf_with_toc E notebook_path pdf_path title subtitle color w =
    let '(r, w') := render E (toc_temp_of (html_path_of notebook_path)) pdf_path true
                      (toc_ready E notebook_path title subtitle color w) in
    (r, World (delete (html_path_of notebook_path)
                 (delete (toc_temp_of (html_path_of notebook_path)) (files w')))
          (trace w')).
Proof.
  intros Hconv Hread Hwrite.
  unfold convert_to_pdf_with_toc, nbconvert, read_file, write_file, print.
  repeat run_step. rewrite lookup_insert_eq. repeat run_step.
  unfold try_finally, toc_ready. rewrite <- !app_assoc. cbn [app].
  match goal with |- context [render E ?a ?b ?c ?w0] =>
    destruct (render E a b c w0) as [r w'] end.
  rewrite bind_run, !unlink_if_exists_run. by cbn [files trace].
Qed.

Lemma convert_to_pdf_with_toc_cleans notebook_path pdf_path title subtitle color w :
  raises E (Nbconvert notebook_path) = None ->
  raises E (FileRead (html_path_of notebook_path)) = None ->
  raises E (FileWrite (toc_temp_of (html_path_of notebook_path))) = None ->
  let w' := snd (convert_to_pdf_with_toc E notebook_path pdf_path
                   title subtitle color w) in
  files w' !! html_path_of notebook_path = None
  /\ files w' !! toc_temp_of (html_path_of notebook_path) = None.
Proof.
  intros Hconv Hread Hwrite.
  rewrite convert_to_pdf_with_toc_run by done.
  destruct (render E _ _ _ _) as [r w']. cbn [snd files].
  split; [apply lookup_delete_eq |].
  destruct (decide (html_path_of notebook_path
                    = toc_temp_of (html_path_of notebook_path))) as [<- | Hne].
  - apply lookup_delete_eq.
  - rewrite lookup_delete_ne by done. apply lookup_delete_eq.
Qed.

(** The basic script's [convert_html_to_pdf] on an existing markup file:
    only the temporary copy is deleted after the rendering. *)
Lemma convert_html_to_pdf_run html_path content pdf_path w :
  files w !! html_path = Some content ->
  raises E (FileRead html_path) = None ->
  raises E (FileWrite (mathjax_temp_of html_path)) = None ->
  convert_html_to_pdf E html_path pdf_path w =
    let '(r, w') := render E (mathjax_temp_of html_path) pdf_path false
                      (basic_ready html_path content w) in
    (r, World (delete (mathjax_temp_of html_path) (files w')) (trace w')).
Proof.
  intros Hfile Hread Hwrite.
  unfold convert_html_to_pdf, read_file, write_file.
  repeat run_step. rewrite Hfile. repeat run_step.
  unfold try_finally, basic_ready. rewrite <- !app_assoc. cbn [app].
  match goal with |- context [render E ?a ?b ?c ?w0] =>
    destruct (render E a b c w0) as [r w'] end.
  rewrite unlink_if_exists_run. by cbn [files trace].
Qed.

Lemma not_in_try_body c :
  Forall (fun c' => c <> c') try_body_calls -> c ∉ try_body_calls.
Proof.
  intros H Hin. rewrite Forall_forall in H. by apply (H c Hin).
Qed.

(** C9.  Everything else returning, when the wait for the MathJax global
    times out (at 15000 ms) or the typeset script raises, both scripts
    print the warning, wait 5000 ms, go on to [page.pdf] and return
    without an exception, the PDF written and the temporary markup
    deleted. *)
Theorem mathjax_failure_is_recovered
    notebook_path pdf_path title subtitle color w html_path content w0
    msg attempted :
  (forall c, c ∉ try_body_calls -> raises E c = None) ->
  mathjax_fails E msg attempted ->
  files w0 !! html_path = Some content ->
  convert_to_pdf_with_toc E notebook_path pdf_path title subtitle color w =
    (Val tt,
     World (delete (html_path_of notebook_path)
              (delete (toc_temp_of (html_path_of notebook_path))
                 (<[pdf_path := pdf_bytes E]>
                    (files (toc_ready E notebook_path title subtitle color w)))))
       (trace (toc_ready E notebook_path title subtitle color w)
        ++ [Playwright; Launch; NewPage;
            Goto (py "file://"
                  ++ absolute (toc_temp_of (html_path_of notebook_path)))]
        ++ attempted
        ++ [warning msg; WaitForTimeout 5000; Pdf pdf_path true;
            BrowserClose; PlaywrightStop]))
  /\ convert_html_to_pdf E html_path pdf_path w0 =
       (Val tt,
        World (delete (mathjax_temp_of html_path)
                 (<[pdf_path := pdf_bytes E]>
                    (files (basic_ready html_path content w0))))
          (trace (basic_ready html_path content w0)
           ++ [Playwright; Launch; NewPage;
               Goto (py "file://" ++ absolute (mathjax_temp_of html_path))]
           ++ attempted
           ++ [warning msg; WaitForTimeout 5000; Pdf pdf_path false;
               BrowserClose; PlaywrightStop])).
Proof.
  intros Hothers Hfail Hfile.
  assert (forall c, Forall (fun c' => c <> c') try_body_calls -> raises E c = None)
    as Hret by (intros c Hc; by apply Hothers, not_in_try_body).
  assert (forall temp flag w1,
            render E temp pdf_path flag w1 =
              (Val tt,
               World (<[pdf_path := pdf_bytes E]> (files w1))
                 (trace w1
                  ++ [Playwright; Launch; NewPage; Goto (py "file://" ++ absolute temp)]
                  ++ attempted
                  ++ [warning msg; WaitForTimeout 5000; Pdf pdf_path flag;
                      BrowserClose; PlaywrightStop]))) as Hrender.
  { intros temp flag w1.
    apply render_recovers; try done; apply Hret; by repeat constructor. }
  split.
  - rewrite convert_to_pdf_with_toc_run
      by (apply Hret; by repeat constructor).
    by rewrite Hrender.
  - rewrite (convert_html_to_pdf_run html_path content)
      by (try done; apply Hret; by repeat constructor).
    by rewrite Hrender.
Qed.

End PipelineFacts.

(** C2.  A run of the basic script in which the browser raises at
    [page.pdf]: the run ends with that exception, the temporary copy is
    gone, and the markup the converter wrote, [nb.html], is still there. *)
Theorem basic_run_leaves_converter_output :
  fst (main_basic (P := bare_names) pdf_fails (py "nb.ipynb") None one_notebook)
    = Exc (PlaywrightError (py "Target closed"))
  /\ files (snd (main_basic (P := bare_names) pdf_fails (py "nb.ipynb") None
                   one_notebook)) !! py "nb.html"
     = Some (converter_output pdf_fails)
  /\ files (snd (main_basic (P := bare_names) pdf_fails (py "nb.ipynb") None
                   one_notebook)) !! py "nb_mathjax.html"
     = None.
Proof. repeat split; vm_compute; reflexivity. Qed.

(** The TOC script leaves the converter's markup behind too when it fails
    before its [try], here at the write of the temporary file. *)
Lemma toc_run_before_try_leaves_converter_output :
  fst (convert_to_pdf_with_toc (U := ascii) (B := one_string_body) (P := bare_names)
         write_fails (py "nb.ipynb") (py "nb.pdf") (py "T") (py "S") default_color
         one_notebook)
    = Exc OSError
  /\ files (snd (convert_to_pdf_with_toc (U := ascii) (B := one_string_body)
                   (P := bare_names) write_fails (py "nb.ipynb") (py "nb.pdf")
                   (py "T") (py "S") default_color one_notebook)) !! py "nb.html"
     = Some (converter_output write_fails).
Proof. split; vm_compute; reflexivity. Qed.

(** *** The fragments in the body *)

Lemma mutate_first_node_tag name f nm a cs :
  mutate_first_node name f (Tag nm a cs) =
    if bool_decide (nm = name) then Some (Tag nm a (f cs))
    else Tag nm a <$> mutate_first name f cs.
Proof. reflexivity. Qed.

Lemma first_match_tag name nm a cs :
  head (List.filter (name_in [name]) (self_and_descendants (Tag nm a cs))) =
    if bool_decide (nm = name) then Some (Tag nm a cs) else find name cs.
Proof.
  cbn [self_and_descendants List.filter name_in].
  rewrite (bool_decide_ext (nm ∈ [name]) (nm = name))
    by apply list_elem_of_singleton.
  by destruct (bool_decide (nm = name)).
Qed.

Lemma find_cons name c r :
  find name (c :: r) =
    match head (List.filter (name_in [name]) (self_and_descendants c)) with
    | Some t => Some t
    | None => find name r
    end.
Proof.
  unfold find. rewrite find_all_cons.
  by destruct (List.filter (name_in [name]) (self_and_descendants c)).
Qed.

Lemma mutate_first_spec_of name f l :
  Forall (mutates_first name f) l ->
  (find name l = None -> mutate_first name f l = None)
  /\ (forall nm a cs,
        find name l = Some (Tag nm a cs) ->
        exists l', mutate_first name f l = Some l'
          /\ find name l' = Some (Tag nm a (f cs))).
Proof.
  induction 1 as [| c r [Hc1 Hc2] _ [IH1 IH2]]; [done |].
  rewrite find_cons. cbn [mutate_first].
  destruct (head (List.filter (name_in [name]) (self_and_descendants c)))
    as [t |] eqn:Hhead.
  - split; [done |]. intros nm a cs [= ->].
    destruct (Hc2 nm a cs eq_refl) as (c' & Hm & Hf). rewrite Hm.
    eexists. split; [done |]. by rewrite find_cons, Hf.
  - rewrite Hc1 by done. split.
    + intros Hr. by rewrite IH1.
    + intros nm a cs Hr. destruct (IH2 nm a cs Hr) as (r' & Hm & Hf).
      rewrite Hm. eexists. split; [done |]. by rewrite find_cons, Hhead.
Qed.

Lemma mutate_first_node_spec name f n : mutates_first name f n.
Proof.
  induction n as [s | nm a cs IH] using node_ind'; [by split |].
  destruct (mutate_first_spec_of name f cs IH) as [H1 H2].
  unfold mutates_first. rewrite mutate_first_node_tag, first_match_tag.
  destruct (bool_decide (nm = name)) eqn:Hnm.
  - split; [done |]. intros nm' a' cs' [= -> -> ->].
    eexists. split; [done |]. by rewrite first_match_tag, Hnm.
  - split.
    + intros Hf. by rewrite H1.
    + intros nm' a' cs' Hf. destruct (H2 nm' a' cs' Hf) as (l' & Hm & Hf').
      rewrite Hm. eexists. split; [done |]. by rewrite first_match_tag, Hnm.
Qed.

Lemma mutate_first_spec name f l :
  (find name l = None -> mutate_first name f l = None)
  /\ (forall nm a cs,
        find name l = Some (Tag nm a cs) ->
        exists l', mutate_first name f l = Some l'
          /\ find name l' = Some (Tag nm a (f cs))).
Proof.
  apply mutate_first_spec_of, Forall_forall.
  intros n _. apply mutate_first_node_spec.
Qed.


Section AugmentationFacts.

Context {U : Unicode} {B : Bs4}.


Lemma augment_without_body html_content title subtitle color :
  find (py "body") (snd (extract_headings (parse html_content))) = None ->
  snd (augment html_content title subtitle color)
    = snd (extract_headings (parse html_content)).
Proof.
  intros Hbody. unfold augment.
  destruct (extract_headings (parse html_content)) as [headings soup].
  unfold insert_fragments. cbn [snd] in *. by rewrite Hbody.
Qed.

End AugmentationFacts.

Section RunWithoutBody.

Context {U : Unicode} {B : Bs4} {P : Pathlib}.
Variable E : env.

(** C10.  When the markup of the converter has no body, the augmentation
    inserts neither fragment: the soup stays the one the extraction left,
    the temporary file holds its serialization (with the MathJax block
    and the styles put before the end of the head), and the run goes on
    to the rendering. *)
Theorem no_body_no_fragments notebook_path pdf_path title subtitle color w :
  find (py "body") (snd (extract_headings (parse (converter_output E)))) = None ->
  raises E (Nbconvert notebook_path) = None ->
  raises E (FileRead (html_path_of notebook_path)) = None ->
  raises E (FileWrite (toc_temp_of (html_path_of notebook_path))) = None ->
  snd (augment (converter_output E) title subtitle color)
    = snd (extract_headings (parse (converter_output E)))
  /\ files (toc_ready E notebook_path title subtitle color w)
       !! toc_temp_of (html_path_of notebook_path)
     = Some (replace (py "</head>")
               (mathjax_and_styles color ++ nl :: py "</head>")
               (decode (snd (extract_headings (parse (converter_output E))))))
  /\ convert_to_pdf_with_toc E notebook_path pdf_path title subtitle color w =
       let '(r, w') := render E (toc_temp_of (html_path_of notebook_path))
                         pdf_path true
                         (toc_ready E notebook_path title subtitle color w) in
       (r, World (delete (html_path_of notebook_path)
                    (delete (toc_temp_of (html_path_of notebook_path)) (files w')))
             (trace w')).
Proof.
  intros Hbody Hconv Hread Hwrite.
  pose proof (augment_without_body (converter_output E) title subtitle color Hbody)
    as Hsame.
  split; [done |]. split.
  - unfold toc_ready. cbn [files]. rewrite lookup_insert_eq.
    unfold augmented_markup. by rewrite Hsame.
  - by apply convert_to_pdf_with_toc_run.
Qed.

End RunWithoutBody.

(** ** The theorems at concrete inputs *)

Example slugify_results_discussion :
  slugify (U := ascii) (py "Results & Discussion") = py "results-discussion".
Proof. vm_compute. reflexivity. Qed.

(** C3, as stated, fails on [own_ids]: the second heading, whose slug is
    the [id] the first one brought, gets that same anchor; and the empty
    [id] of the third is overwritten. *)
Lemma existing_id_not_registered :
  map get_id (find_all heading_names own_ids)
    = [Some (py "overview"); None; Some []]
  /\ map anchor (fst (extract_headings (U := ascii) own_ids))
     = [py "overview"; py "overview"; py "notes"]
  /\ map get_id (find_all heading_names (snd (extract_headings (U := ascii) own_ids)))
     = [Some (py "overview"); Some (py "overview"); Some (py "notes")]
  /\ ~ keeps_and_registers_ids (U := ascii) own_ids.
Proof.
  split; [vm_compute; reflexivity |].
  split; [vm_compute; reflexivity |].
  split; [vm_compute; reflexivity |].
  intros Hclaim.
  destruct (Hclaim 0%nat (with_id "h1" (py "overview") (py "Intro")) (py "overview"))
    as [_ Hlater]; [vm_compute; reflexivity | vm_compute; reflexivity |].
  apply (Hlater 1%nat (plain "h2" (py "Overview"))
           (Heading 2 (py "Overview") (py "overview")));
    first [lia | vm_compute; reflexivity].
Qed.

Lemma existing_id_reused_witness :
  find_all heading_names own_ids !! 0%nat
    = Some (with_id "h1" (py "overview") (py "Intro"))
  /\ has_text (with_id "h1" (py "overview") (py "Intro")) = true
  /\ get_id (with_id "h1" (py "overview") (py "Intro")) = Some (py "overview")
  /\ py "overview" <> []
  /\ (fst (extract_headings (U := ascii) own_ids) !! record_index own_ids 0
        = Some (Heading (level_of (name_of (with_id "h1" (py "overview") (py "Intro"))))
                  (clean_text (get_text (with_id "h1" (py "overview") (py "Intro"))))
                  (py "overview"))
      /\ attrs_of <$> (find_all heading_names
                         (snd (extract_headings (U := ascii) own_ids)) !! 0%nat)
         = Some (attrs_of (with_id "h1" (py "overview") (py "Intro")))).
Proof.
  split; [vm_compute; reflexivity |].
  split; [vm_compute; reflexivity |].
  split; [vm_compute; reflexivity |].
  split; [discriminate |].
  apply (existing_id_reused (U := ascii) own_ids 0
           (with_id "h1" (py "overview") (py "Intro")) (py "overview"));
    [vm_compute; reflexivity | vm_compute; reflexivity
    | vm_compute; reflexivity | discriminate].
Defined.

(** C4, as stated, fails on [overview_with_id]: the first of the two
    headings "Overview" brings an [id], which is its anchor; the second
    gets [overview-1] all the same. *)
Lemma overview_keeps_its_id :
  map (fun t => clean_text (get_text t)) (find_all heading_names overview_with_id)
    = [py "Overview"; py "Overview"]
  /\ map anchor (fst (extract_headings (U := ascii) overview_with_id))
     = [py "summary"; py "overview-1"]
  /\ map anchor (fst (extract_headings (U := ascii) overview_with_id))
     <> [py "overview"; py "overview-1"]
  /\ map get_id (find_all heading_names
                   (snd (extract_headings (U := ascii) overview_with_id)))
     = [Some (py "summary"); Some (py "overview-1")].
Proof.
  split; [vm_compute; reflexivity |].
  split; [vm_compute; reflexivity |].
  split; [vm_compute; discriminate |].
  vm_compute. reflexivity.
Qed.

Lemma overview_twice_witness :
  lower (Unicode := ascii) (py "Overview") = py "overview"
  /\ forallb (isalnum (Unicode := ascii)) (py "overview") = true
  /\ find_all heading_names two_overviews
     = [plain "h1" (py "Intro")]
         ++ plain "h2" (py "Overview")
         :: [plain "h3" (py "Details")]
         ++ plain "h2" (py "Overview")
         :: [plain "h3" (py "End")]
  /\ ((exists hpre hmid hpost,
         fst (extract_headings (U := ascii) two_overviews) =
           hpre ++ Heading 2 (py "Overview") (py "overview")
                :: hmid ++ Heading 2 (py "Overview") (py "overview-1")
                :: hpost
         /\ length hpre = 1%nat /\ length hmid = 1%nat)
      /\ get_id <$> (find_all heading_names
                       (snd (extract_headings (U := ascii) two_overviews)) !! 1%nat)
         = Some (Some (py "overview"))
      /\ get_id <$> (find_all heading_names
                       (snd (extract_headings (U := ascii) two_overviews)) !! 3%nat)
         = Some (Some (py "overview-1"))).
Proof.
  split; [vm_compute; reflexivity |].
  split; [vm_compute; reflexivity |].
  split; [vm_compute; reflexivity |].
  apply (overview_twice (U := ascii) two_overviews
           [plain "h1" (py "Intro")]
           (plain "h2" (py "Overview"))
           [plain "h3" (py "Details")]
           (plain "h2" (py "Overview"))
           [plain "h3" (py "End")]);
    try (vm_compute; reflexivity).
  intros t Ht _.
  apply elem_of_app in Ht as [Ht%list_elem_of_singleton | Ht%list_elem_of_singleton];
    subst t; vm_compute; discriminate.
Defined.



Lemma no_body_no_fragments_witness :
  find (py "body")
    (snd (extract_headings (U := ascii)
            (parse (Bs4 := no_body) (converter_output pdf_fails))))
    = None
  /\ raises pdf_fails (Nbconvert (py "nb.ipynb")) = None
  /\ raises pdf_fails (FileRead (html_path_of (P := bare_names) (py "nb.ipynb"))) = None
  /\ raises pdf_fails
       (FileWrite (toc_temp_of (P := bare_names)
                     (html_path_of (P := bare_names) (py "nb.ipynb")))) = None
  /\ snd (augment (U := ascii) (B := no_body)
            (converter_output pdf_fails) (py "T") (py "S") default_color)
     = snd (extract_headings (U := ascii)
              (parse (Bs4 := no_body) (converter_output pdf_fails)))
  /\ files (toc_ready (U := ascii) (B := no_body) (P := bare_names) pdf_fails
              (py "nb.ipynb") (py "T") (py "S") default_color one_notebook)
       !! py "nb_toc.html"
     = Some (replace (py "</head>")
               (mathjax_and_styles default_color ++ nl :: py "</head>")
               (converter_output pdf_fails)).
Proof.
  split; [vm_compute; reflexivity |].
  split; [reflexivity |]. split; [reflexivity |]. split; [reflexivity |].
  assert (find (py "body")
            (snd (extract_headings (U := ascii)
                    (parse (Bs4 := no_body) (converter_output pdf_fails)))) = None)
    as Hbody by (vm_compute; reflexivity).
  destruct (no_body_no_fragments (U := ascii) (B := no_body) (P := bare_names)
              pdf_fails (py "nb.ipynb") (py "nb.pdf") (py "T") (py "S")
              default_color one_notebook Hbody eq_refl eq_refl eq_refl)
    as (Hsoup & Hfile & _).
  split; [exact Hsoup |].
  vm_compute. reflexivity.
Defined.

Lemma missing_source_witness :
  files empty_dir !! Path (Pathlib := bare_names) (notebook nb_args) = None
  /\ files empty_dir !! Path (Pathlib := bare_names) (py "nb.ipynb") = None
  /\ (main_toc (U := ascii) (B := one_string_body) (P := bare_names)
        pdf_fails nb_args empty_dir
      = (Exc (SystemExit 1),
         World (files empty_dir)
           (trace empty_dir
            ++ [Printed (py "Error: " ++ Path (Pathlib := bare_names) (notebook nb_args)
                       ++ py " not found")]))
      /\ main_basic (P := bare_names) pdf_fails (py "nb.ipynb") None empty_dir
         = (Exc (SystemExit 1),
            World (files empty_dir)
              (trace empty_dir
               ++ [Printed (py "Error: " ++ Path (Pathlib := bare_names) (py "nb.ipynb")
                          ++ py " not found")]))
      /\ exit_code (Exc (SystemExit 1)) <> 0).
Proof.
  split; [vm_compute; reflexivity |].
  split; [vm_compute; reflexivity |].
  apply (missing_source (U := ascii) (B := one_string_body) (P := bare_names)
           pdf_fails nb_args (py "nb.ipynb") None empty_dir);
    vm_compute; reflexivity.
Defined.

Lemma mathjax_failure_is_recovered_witness :
  (forall c, c ∉ try_body_calls -> raises mathjax_times_out c = None)
  /\ mathjax_fails mathjax_times_out (py "Timeout 15000ms exceeded.")
       [WaitForFunction (py "typeof MathJax !== 'undefined'") 15000]
  /\ files (World {[ py "nb.html" := py "<head></head>" ]} []) !! py "nb.html"
     = Some (py "<head></head>")
  /\ fst (convert_to_pdf_with_toc (U := ascii) (B := one_string_body)
            (P := bare_names) mathjax_times_out
            (py "nb.ipynb") (py "nb.pdf") (py "T") (py "S") default_color
            one_notebook)
     = Val tt
  /\ fst (convert_html_to_pdf (P := bare_names) mathjax_times_out
            (py "nb.html") (py "nb.pdf")
            (World {[ py "nb.html" := py "<head></head>" ]} []))
     = Val tt.
Proof.
  assert (forall c, c ∉ try_body_calls -> raises mathjax_times_out c = None) as Hothers.
  { intros c Hc. cbn [raises mathjax_times_out].
    rewrite bool_decide_eq_false_2; [done |].
    intros ->. apply Hc. by left. }
  assert (mathjax_fails mathjax_times_out (py "Timeout 15000ms exceeded.")
            [WaitForFunction (py "typeof MathJax !== 'undefined'") 15000]) as Hfail.
  { left. split; reflexivity. }
  split; [exact Hothers |]. split; [exact Hfail |].
  split; [vm_compute; reflexivity |].
  destruct (mathjax_failure_is_recovered (U := ascii) (B := one_string_body)
              (P := bare_names) mathjax_times_out
              (py "nb.ipynb") (py "nb.pdf") (py "T") (py "S") default_color
              one_notebook (py "nb.html") (py "<head></head>")
              (World {[ py "nb.html" := py "<head></head>" ]} [])
              (py "Timeout 15000ms exceeded.")
              [WaitForFunction (py "typeof MathJax !== 'undefined'") 15000]
              Hothers Hfail) as [Htoc Hbasic].
  { vm_compute. reflexivity. }
  split; [by rewrite Htoc | by rewrite Hbasic].
Defined.

(** ** Further properties of the text functions *)

Lemma lstrip_suffix s : exists p, s = p ++ lstrip s.
Proof.
  induction s as [| c s [p IH]]; [by exists [] |].
  simpl. destruct (isspace c); [| by exists []].
  exists (c :: p). simpl. by rewrite <- IH.
Qed.

Lemma rstrip_prefix s : exists q, s = rstrip s ++ q.
Proof.
  unfold rstrip. destruct (lstrip_suffix (rev s)) as [p Hp].
  exists (rev p). rewrite <- rev_app_distr, <- Hp. by rewrite rev_involutive.
Qed.

Lemma lstrip_starts_clean s : starts_clean (lstrip s).
Proof.
  induction s as [| c s IH]; [done |]. simpl.
  destruct (isspace c) eqn:Hc; [done | by simpl].
Qed.

Lemma lstrip_id s : starts_clean s -> lstrip s = s.
Proof. destruct s as [| c s]; [done |]. simpl. by intros ->. Qed.

Lemma rstrip_id s : starts_clean (rev s) -> rstrip s = s.
Proof. intros H. unfold rstrip. by rewrite lstrip_id, rev_involutive. Qed.

Lemma rstrip_ends_clean s : starts_clean (rev (rstrip s)).
Proof. unfold rstrip. rewrite rev_involutive. apply lstrip_starts_clean. Qed.

Lemma rstrip_starts_clean s : starts_clean s -> starts_clean (rstrip s).
Proof.
  intros H. destruct (rstrip_prefix s) as [q Hq].
  destruct (rstrip s) as [| c r]; [done |].
  rewrite Hq in H. exact H.
Qed.

Lemma strip_fixed s :
  starts_clean s -> starts_clean (rev s) -> strip s = s.
Proof. intros H1 H2. unfold strip. rewrite lstrip_id by done. by apply rstrip_id. Qed.

Lemma strip_clean s : starts_clean (strip s) /\ starts_clean (rev (strip s)).
Proof.
  unfold strip. split; [| apply rstrip_ends_clean].
  apply rstrip_starts_clean, lstrip_starts_clean.
Qed.

Lemma strip_sub s c : c ∈ strip s -> c ∈ s.
Proof.
  unfold strip. intros H.
  destruct (lstrip_suffix s) as [p Hp]. destruct (rstrip_prefix (lstrip s)) as [q Hq].
  rewrite Hp, Hq. set_solver.
Qed.

Lemma remove_char_spec c s x : x ∈ remove_char c s <-> x ∈ s /\ x <> c.
Proof.
  unfold remove_char. by rewrite !list_elem_of_In, filter_In, negb_true_iff, N.eqb_neq.
Qed.

Lemma remove_char_id c s : c ∉ s -> remove_char c s = s.
Proof.
  unfold remove_char. induction s as [| x s IH]; [done |].
  intros H. simpl. destruct (x =? c)%N eqn:Hx.
  - apply N.eqb_eq in Hx. subst. set_solver.
  - simpl. rewrite IH; [done | set_solver].
Qed.

Lemma clean_text_free raw :
  (pilcrow ∉ clean_text raw) /\ (section_sign ∉ clean_text raw).
Proof.
  unfold clean_text. split; intros H%strip_sub.
  - apply remove_char_spec in H as [H _]. by apply remove_char_spec in H as [_ H].
  - by apply remove_char_spec in H as [_ H].
Qed.

Lemma clean_text_stripped raw : strip (clean_text raw) = clean_text raw.
Proof. unfold clean_text. apply strip_fixed; apply strip_clean. Qed.

Lemma clean_text_again raw : clean_text (clean_text raw) = clean_text raw.
Proof.
  destruct (clean_text_free raw) as [Hp Hs].
  unfold clean_text at 1. rewrite clean_text_stripped.
  rewrite (remove_char_id pilcrow), (remove_char_id section_sign) by done.
  apply clean_text_stripped.
Qed.

(** X1.  The cleaned text of a heading is free of the pilcrow and of the
    section sign, neither begins nor ends with whitespace, and cleaning
    it again changes nothing. *)
Theorem clean_text_canonical raw :
  (pilcrow ∉ clean_text raw)
  /\ (section_sign ∉ clean_text raw)
  /\ starts_clean (clean_text raw)
  /\ starts_clean (rev (clean_text raw))
  /\ clean_text (clean_text raw) = clean_text raw.
Proof.
  destruct (clean_text_free raw) as [Hp Hs].
  repeat split; try done; try apply clean_text_again;
    unfold clean_text; apply strip_clean.
Qed.

Lemma collapse_chars s :
  forall in_run c,
    c ∈ collapse in_run s ->
    c = hyphen \/ (c ∈ s /\ isspace c = false /\ c <> hyphen).
Proof.
  induction s as [| x s IH]; intros in_run c; [by intros ?%elem_of_nil |].
  assert (forall b, c ∈ collapse b s ->
            c = hyphen \/ (c ∈ x :: s /\ isspace c = false /\ c <> hyphen)) as Hrest.
  { intros b H. destruct (IH _ _ H) as [-> | (? & ? & ?)]; [by left |].
    right. set_solver. }
  cbn [collapse]. destruct ((x =? hyphen)%N || isspace x) eqn:Hsep.
  - destruct in_run; [apply Hrest |].
    intros [-> | H]%elem_of_cons; [by left | by apply (Hrest true)].
  - apply orb_false_iff in Hsep as [Hx%N.eqb_neq Hsp].
    intros [-> | H]%elem_of_cons; [| by apply (Hrest false)].
    right. set_solver.
Qed.

Lemma collapse_no_adjacent s :
  forall in_run,
    no_adjacent_hyphens (collapse in_run s) = true
    /\ (in_run = true -> head (collapse in_run s) <> Some hyphen).
Proof.
  induction s as [| x s IH]; intros in_run; [done |].
  cbn [collapse].
  destruct (IH true) as [Ht Hhead]. destruct (IH false) as [Hf _].
  destruct ((x =? hyphen)%N || isspace x) eqn:Hsep.
  - destruct in_run; [split; [done | auto] |].
    split; [| done]. cbn [no_adjacent_hyphens]. rewrite Ht, andb_true_r.
    specialize (Hhead eq_refl).
    destruct (collapse true s) as [| b r]; [done |].
    apply negb_true_iff, andb_false_iff. right. apply N.eqb_neq.
    intros ->. by apply Hhead.
  - apply orb_false_iff in Hsep as [Hx _].
    split; [| intros _; cbn; apply N.eqb_neq in Hx; congruence].
    cbn [no_adjacent_hyphens]. rewrite Hf, andb_true_r.
    destruct (collapse false s); [done |]. by rewrite Hx.
Qed.

Section SlugFacts.

Context {U : Unicode}.

(** X2.  A slug is made of hyphens and of word characters of the lowered
    text that are not whitespace, and never has two hyphens side by
    side. *)
Theorem slug_shape t :
  Forall (fun c => c = hyphen
                   \/ (c ∈ lower t /\ isword c = true /\ isspace c = false))
    (slugify t)
  /\ no_adjacent_hyphens (slugify t) = true.
Proof.
  split; [| apply collapse_no_adjacent].
  apply Forall_forall. intros c Hc. unfold slugify in Hc.
  apply collapse_chars in Hc as [-> | (Hin & Hsp & Hne)]; [by left |].
  right. apply list_elem_of_In, filter_In in Hin as [Hin Hkeep].
  apply list_elem_of_In in Hin. split; [done |]. split; [| done].
  rewrite Hsp in Hkeep. apply N.eqb_neq in Hne. rewrite Hne in Hkeep.
  by rewrite !orb_false_r in Hkeep.
Qed.

End SlugFacts.

(** ** Further properties of the extraction *)

Lemma py_inj a b : py a = py b -> a = b.
Proof.
  revert b. induction a as [| x a IH]; intros [| y b]; try done.
  simpl. intros [= Hxy Hab]. f_equal; [| by apply IH].
  by rewrite <- (ascii_N_embedding x), <- (ascii_N_embedding y), Hxy.
Qed.

Lemma str_of_int_inj a b : str_of_int a = str_of_int b -> a = b.
Proof.
  unfold str_of_int. intros H%py_inj.
  apply DecimalZ.to_int_inj.
  assert (forall z, Z.to_int z <> Decimal.Pos Decimal.Nil
                    /\ Z.to_int z <> Decimal.Neg Decimal.Nil) as Hnn.
  { intros [| p | p]; split; try done; simpl; intros [= Hp];
      by apply (DecimalPos.Unsigned.to_uint_nonnil p). }
  destruct (Hnn a), (Hnn b).
  assert (Some (Z.to_int a) = Some (Z.to_int b)) as [= ->]; [| done].
  rewrite <- (NilZero.isi (Z.to_int a)), <- (NilZero.isi (Z.to_int b)) by done.
  by rewrite H.
Qed.

Section MoreExtractionFacts.

Context {U : Unicode}.

Lemma find_all_names names soup t :
  t ∈ find_all names soup -> name_of t ∈ names.
Proof.
  unfold find_all. intros [_ H]%list_elem_of_In%filter_In.
  destruct t as [| nm a cs]; [done |]. by apply bool_decide_eq_true in H.
Qed.

Lemma level_of_heading nm : nm ∈ heading_names -> 1 <= level_of nm <= 4.
Proof.
  unfold heading_names.
  rewrite !elem_of_cons, elem_of_nil.
  intros [-> | [-> | [-> | [-> | []]]]]; vm_compute; split; discriminate.
Qed.

(** What one iteration does for a tag with text: one record, with the
    level and the cleaned text of the tag, whose anchor is the [id] the
    tag has after the iteration. *)
Lemma visit_record st t :
  has_text t = true ->
  exists r,
    snd (fst (visit st (name_of t) (attrs_of t) (get_text t))) = snd st ++ [r]
    /\ level r = level_of (name_of t)
    /\ text r = clean_text (get_text t)
    /\ snd (visit st (name_of t) (attrs_of t) (get_text t)) !! id_key
       = Some (anchor r).
Proof.
  intros Ht. rewrite visit_text by done. cbn zeta.
  destruct (next_anchor _ _) as [counter anchor_id].
  rewrite get_id_attrs.
  destruct (attrs_of t !! id_key) as [[| c v] |] eqn:Hid; cbn [truthy];
    eexists; cbn [fst snd]; (split; [done |]); cbn [level text anchor];
    repeat split; try done; by rewrite lookup_insert_eq.
Qed.

Lemma loop_records l :
  forall st, exists new,
    snd (fst (loop st l)) = snd st ++ new
    /\ map (fun r => (level r, text r)) new
       = map (fun t => (level_of (name_of t), clean_text (get_text t)))
           (List.filter has_text l).
Proof.
  induction l as [| t l IH]; intros st; cbn [loop].
  { exists []. by rewrite app_nil_r. }
  pose proof (visit_record st t) as Hrec. pose proof (visit_skip st t) as Hskip.
  destruct (visit st _ _ _) as [st1 a'].
  destruct (IH st1) as (new & Hnew & Hmap).
  destruct (loop st1 l) as [st2 r']. cbn [fst snd List.filter] in *.
  destruct (has_text t).
  - destruct (Hrec eq_refl) as (r & Hr & Hlvl & Htxt & _).
    exists (r :: new). rewrite Hnew, Hr, <- app_assoc. split; [done |].
    cbn [map]. by rewrite Hlvl, Htxt, Hmap.
  - specialize (Hskip eq_refl). apply pair_equal_spec in Hskip as [-> _].
    by exists new.
Qed.

(** X3.  The records are those of the h1-h4 elements whose cleaned text
    is not empty, in document order, each with the level of its element
    and its cleaned text. *)
Theorem records_follow_document soup :
  map (fun r => (level r, text r)) (fst (extract_headings soup))
    = map (fun t => (level_of (name_of t), clean_text (get_text t)))
        (List.filter has_text (find_all heading_names soup)).
Proof.
  destruct (extract_headings_loop soup) as (Hl & Hhs & _).
  destruct (loop_records (find_all heading_names soup) (∅, []))
    as (new & Hnew & Hmap).
  rewrite Hl in Hnew. cbn [fst snd app] in Hnew. by rewrite Hhs, Hnew.
Qed.

(** X4.  Every record has a level from 1 to 4 and a text that is not
    empty and is in cleaned form. *)
Theorem records_well_formed soup :
  Forall (fun r => 1 <= level r <= 4
                   /\ text r <> []
                   /\ clean_text (text r) = text r)
    (fst (extract_headings soup)).
Proof.
  apply Forall_forall. intros r Hr.
  assert ((level r, text r)
          ∈ map (fun t => (level_of (name_of t), clean_text (get_text t)))
              (List.filter has_text (find_all heading_names soup))) as Hin.
  { destruct (extract_headings_loop soup) as (Hl & Hhs & _).
    destruct (loop_records (find_all heading_names soup) (∅, []))
      as (new & Hnew & Hmap).
    rewrite Hl in Hnew. cbn [fst snd app] in Hnew. rewrite <- Hmap, <- Hnew, <- Hhs.
    apply list_elem_of_In. apply (in_map (fun r => (level r, text r))).
    by apply list_elem_of_In. }
  apply list_elem_of_In, in_map_iff in Hin as (t & [= Hlvl Htxt] & Ht).
  apply filter_In in Ht as [Ht Htext]. apply list_elem_of_In in Ht.
  rewrite <- Hlvl, <- Htxt. split; [| split].
  - by apply level_of_heading, (find_all_names _ soup).
  - unfold has_text in Htext. by destruct (clean_text (get_text t)).
  - apply clean_text_again.
Qed.

Lemma same_tag_has_text t t' : same_tag t t' -> has_text t' = has_text t.
Proof. intros [_ H]. unfold has_text. by rewrite H. Qed.

Lemma loop_ids l l' :
  Forall2 same_tag l l' ->
  forall st st',
    loop st l = (st', map attrs_of l') ->
    exists new,
      snd st' = snd st ++ new
      /\ map get_id (List.filter has_text l') = map (fun r => Some (anchor r)) new.
Proof.
  induction 1 as [| t t' l l' Htt' _ IH]; intros st st' Hloop.
  { cbn in Hloop. apply pair_equal_spec in Hloop as [<- _].
    exists []. by rewrite app_nil_r. }
  cbn [loop map] in Hloop.
  pose proof (visit_record st t) as Hrec. pose proof (visit_skip st t) as Hskip.
  destruct (visit st _ _ _) as [st1 a'].
  specialize (IH st1). destruct (loop st1 l) as [st2 r'].
  apply pair_equal_spec in Hloop as [<- [= -> ->]].
  destruct (IH st2 eq_refl) as (new & Hnew & Hids).
  cbn [List.filter]. rewrite (same_tag_has_text _ _ Htt').
  destruct (has_text t).
  - destruct (Hrec eq_refl) as (r & Hr & _ & _ & Hid). cbn [fst snd] in *.
    exists (r :: new). rewrite Hnew, Hr, <- app_assoc. split; [done |].
    cbn [map]. by rewrite get_id_attrs, Hid, Hids.
  - specialize (Hskip eq_refl). apply pair_equal_spec in Hskip as [-> _].
    by exists new.
Qed.

(** X5.  After the extraction, the h1-h4 elements with text carry, in
    document order, the anchors of the records as their [id]: every
    record points at an element that is there. *)
Theorem every_heading_carries_its_anchor soup :
  map get_id (List.filter has_text
                (find_all heading_names (snd (extract_headings soup))))
    = map (fun r => Some (anchor r)) (fst (extract_headings soup)).
Proof.
  destruct (extract_headings_loop soup) as (Hl & Hhs & Hsame).
  destruct (loop_ids _ _ Hsame _ _ Hl) as (new & Hnew & Hids).
  cbn [snd app] in Hnew. by rewrite Hhs, Hnew.
Qed.

Lemma visit_forget st nm a raw :
  delete id_key (snd (visit st nm a raw)) = delete id_key a.
Proof.
  unfold visit. destruct (clean_text raw); [done |].
  destruct (next_anchor _ _) as [counter anchor_id].
  destruct (truthy (a !! id_key)); [done |]. cbn [snd].
  apply delete_insert_eq.
Qed.

Lemma walk_node_forget n :
  forall st, forget_heading_ids (snd (walk_node st n)) = forget_heading_ids n.
Proof.
  induction n as [s | nm a cs IH] using node_ind'; intros st; [done |].
  rewrite walk_node_tag. cbn [forget_heading_ids].
  assert (forall st1, map forget_heading_ids (snd (walk_list st1 cs))
                      = map forget_heading_ids cs) as Hcs.
  { clear st. induction IH as [| c cs Hc _ IHcs]; intros st1; [done |].
    cbn [walk_list]. specialize (Hc st1). destruct (walk_node st1 c) as [sa c'].
    specialize (IHcs sa). destruct (walk_list sa cs) as [sb r'].
    cbn [snd map] in *. by rewrite Hc, IHcs. }
  destruct (bool_decide (nm ∈ heading_names)) eqn:Hnm.
  - pose proof (visit_forget st nm a (flat_map get_text cs)) as Hv.
    destruct (visit st nm a (flat_map get_text cs)) as [st1 a'].
    specialize (Hcs st1). destruct (walk_list st1 cs) as [st2 cs'].
    cbn [snd forget_heading_ids] in *. by rewrite Hnm, Hv, Hcs.
  - specialize (Hcs st). destruct (walk_list st cs) as [st2 cs'].
    cbn [snd forget_heading_ids] in *. by rewrite Hnm, Hcs.
Qed.

(** X6.  The extraction changes nothing of the document but the [id] of
    h1-h4 elements: with those [id]s forgotten, the soup after the call is
    the soup before it (same tree, names, strings and other
    attributes). *)
Theorem extraction_only_sets_ids soup :
  map forget_heading_ids (snd (extract_headings soup))
    = map forget_heading_ids soup.
Proof.
  unfold extract_headings. generalize (∅ : gmap (list N) Z, [] : list heading).
  induction soup as [| c soup IH]; intros st; [done |].
  cbn [walk_list]. pose proof (walk_node_forget c st) as Hc.
  destruct (walk_node st c) as [sa c']. specialize (IH sa).
  destruct (walk_list sa soup) as [sb r']. cbn [snd map] in *.
  by rewrite Hc, IH.
Qed.

Lemma visit_keeps st t :
  (has_text t = true -> truthy (get_id t) = true) ->
  snd (visit st (name_of t) (attrs_of t) (get_text t)) = attrs_of t.
Proof.
  intros H. destruct (has_text t) eqn:Ht.
  - rewrite visit_text by done. cbn zeta.
    destruct (next_anchor _ _) as [counter anchor_id]. by rewrite H.
  - by rewrite visit_skip.
Qed.

Lemma walk_list_fixed_of l :
  Forall (fun n =>
    Forall (fun t => has_text t = true -> truthy (get_id t) = true) (matched n) ->
    forall st, snd (walk_node st n) = n) l ->
  Forall (fun t => has_text t = true -> truthy (get_id t) = true)
    (find_all heading_names l) ->
  forall st, snd (walk_list st l) = l.
Proof.
  induction 1 as [| c r Hc _ IH]; intros Hall st; [done |].
  rewrite find_all_cons in Hall. apply Forall_app in Hall as [Hhere Hrest].
  cbn [walk_list]. specialize (Hc Hhere st). destruct (walk_node st c) as [sa c'].
  specialize (IH Hrest sa). destruct (walk_list sa r) as [sb r'].
  cbn [snd] in *. by rewrite Hc, IH.
Qed.

Lemma walk_node_fixed n :
  Forall (fun t => has_text t = true -> truthy (get_id t) = true) (matched n) ->
  forall st, snd (walk_node st n) = n.
Proof.
  induction n as [s | nm a cs IH] using node_ind'; intros Hall st; [done |].
  rewrite matched_tag in Hall. apply Forall_app in Hall as [Hhere Hrest].
  pose proof (walk_list_fixed_of cs IH Hrest) as Hcs.
  rewrite walk_node_tag.
  destruct (bool_decide (nm ∈ heading_names)) eqn:Hnm.
  - apply Forall_cons in Hhere as [Hhere _].
    pose proof (visit_keeps st (Tag nm a cs) Hhere) as Hv.
    cbn [name_of attrs_of get_text] in Hv.
    destruct (visit st nm a (flat_map get_text cs)) as [st1 a'].
    specialize (Hcs st1). destruct (walk_list st1 cs) as [st2 cs'].
    cbn [snd] in *. by rewrite Hv, Hcs.
  - specialize (Hcs st). destruct (walk_list st cs) as [st2 cs'].
    cbn [snd] in *. by rewrite Hcs.
Qed.

(** X7.  A document in which every h1-h4 element with text already has a
    non-empty [id] is left as it is, and the anchors of the records are
    those [id]s, in document order, whatever the texts are. *)
Theorem anchored_document_unchanged soup :
  Forall (fun t => has_text t = true -> truthy (get_id t) = true)
    (find_all heading_names soup) ->
  snd (extract_headings soup) = soup
  /\ map (fun r => Some (anchor r)) (fst (extract_headings soup))
     = map get_id (List.filter has_text (find_all heading_names soup)).
Proof.
  intros Hall.
  assert (snd (extract_headings soup) = soup) as Hsame.
  { unfold extract_headings.
    pose proof (walk_list_fixed_of soup
                  (proj2 (Forall_forall _ _) (fun n _ => walk_node_fixed n))
                  Hall (∅, [])) as H.
    destruct (walk_list (∅, []) soup) as [st soup']. exact H. }
  split; [done |].
  destruct (extract_headings_loop soup) as (Hl & Hhs & Hsoup).
  destruct (loop_ids _ _ Hsoup _ _ Hl) as (new & Hnew & Hids).
  cbn [snd app] in Hnew. rewrite Hsame in Hids. by rewrite Hhs, Hnew, Hids.
Qed.

Lemma suffixed_succ s k :
  suffixed s (Z.of_nat (S k)) = s ++ hyphen :: str_of_int (Z.of_nat k + 1).
Proof.
  unfold suffixed. rewrite Nat2Z.inj_succ, <- Z.add_1_r.
  destruct (Z.of_nat k + 1 =? 0) eqn:H; [| done].
  apply Z.eqb_eq in H. lia.
Qed.

(** One iteration on a tag of the slug [s] that has no [id] of its own. *)
Lemma visit_same_slug st t s n :
  seen (fst st) s n ->
  has_slug s t = true ->
  truthy (get_id t) = false ->
  exists r,
    snd (fst (visit st (name_of t) (attrs_of t) (get_text t))) = snd st ++ [r]
    /\ text r = clean_text (get_text t)
    /\ anchor r = suffixed s (Z.of_nat n)
    /\ seen (fst (fst (visit st (name_of t) (attrs_of t) (get_text t)))) s (S n).
Proof.
  intros Hseen [Ht Hs%bool_decide_eq_true]%andb_prop Hid.
  rewrite visit_text by done. cbn zeta. rewrite Hs, Hid. unfold next_anchor.
  destruct n as [| k]; cbn [seen] in Hseen; rewrite Hseen.
  - eexists. cbn [fst snd]. repeat split; cbn [seen]. by rewrite lookup_insert_eq.
  - eexists. cbn [fst snd text anchor seen]. repeat split.
    + by rewrite suffixed_succ.
    + by rewrite lookup_insert_eq, Nat2Z.inj_succ, <- Z.add_1_r.
Qed.

(** One iteration on any other tag. *)
Lemma visit_other_slug st t s n :
  seen (fst st) s n ->
  has_slug s t = false ->
  exists new,
    snd (fst (visit st (name_of t) (attrs_of t) (get_text t))) = snd st ++ new
    /\ List.filter (fun r => bool_decide (slugify (text r) = s)) new = []
    /\ seen (fst (fst (visit st (name_of t) (attrs_of t) (get_text t)))) s n.
Proof.
  intros Hseen Hslug. unfold has_slug in Hslug.
  destruct (has_text t) eqn:Ht.
  - cbn in Hslug. apply bool_decide_eq_false in Hslug.
    rewrite visit_text by done. cbn zeta. unfold next_anchor.
    assert (forall c : gmap (list N) Z,
              fst st !! s = c !! s -> seen c s n) as Hseen'.
    { intros c Hc. destruct n; cbn [seen] in *; congruence. }
    destruct (fst st !! slugify (clean_text (get_text t)));
      destruct (truthy (get_id t)); eexists; cbn [fst snd];
      (split; [done |]); cbn [List.filter text];
      rewrite bool_decide_eq_false_2 by done;
      (split; [done |]); apply Hseen'; by rewrite lookup_insert_ne.
  - rewrite visit_skip by done. exists []. by rewrite app_nil_r.
Qed.

Lemma loop_same_slug s l :
  forall st n,
    seen (fst st) s n ->
    Forall (fun t => has_slug s t = true -> truthy (get_id t) = false) l ->
    exists new,
      snd (fst (loop st l)) = snd st ++ new
      /\ map anchor (List.filter (fun r => bool_decide (slugify (text r) = s)) new)
         = map (fun k => suffixed s (Z.of_nat k))
             (seq n (length (List.filter (has_slug s) l))).
Proof.
  induction l as [| t l IH]; intros st n Hseen Hall; cbn [loop].
  { exists []. by rewrite app_nil_r. }
  apply Forall_cons in Hall as [Ht Hall].
  pose proof (visit_same_slug st t s n Hseen) as Hsame.
  pose proof (visit_other_slug st t s n Hseen) as Hother.
  destruct (visit st _ _ _) as [st1 a']. cbn [fst snd] in *.
  cbn [List.filter]. destruct (has_slug s t) eqn:Hslug.
  - destruct (Hsame eq_refl (Ht eq_refl)) as (r & Hr & Htxt & Hanchor & Hseen1).
    destruct (IH st1 (S n) Hseen1 Hall) as (new & Hnew & Hmap).
    destruct (loop st1 l) as [st2 r']. cbn [fst snd] in *.
    exists (r :: new). rewrite Hnew, Hr, <- app_assoc. split; [done |].
    cbn [List.filter length seq map].
    apply andb_prop in Hslug as [_ Hs%bool_decide_eq_true].
    rewrite Htxt, bool_decide_eq_true_2 by done.
    cbn [map]. by rewrite Hanchor, Hmap.
  - destruct (Hother eq_refl) as (new1 & Hnew1 & Hnone & Hseen1).
    destruct (IH st1 n Hseen1 Hall) as (new & Hnew & Hmap).
    destruct (loop st1 l) as [st2 r']. cbn [fst snd] in *.
    exists (new1 ++ new). rewrite Hnew, Hnew1, <- app_assoc. split; [done |].
    by rewrite List.filter_app, Hnone.
Qed.

(** X8.  The headings of one slug that bring no [id] get, in document
    order, the slug, then the slug with [-1], with [-2] and so on,
    whatever other headings stand between them; these anchors are
    pairwise distinct. *)
Theorem same_slug_numbered soup s :
  Forall (fun t => has_slug s t = true -> truthy (get_id t) = false)
    (find_all heading_names soup) ->
  map anchor (List.filter (fun r => bool_decide (slugify (text r) = s))
                (fst (extract_headings soup)))
    = map (fun k => suffixed s (Z.of_nat k))
        (seq 0 (length (List.filter (has_slug s) (find_all heading_names soup))))
  /\ NoDup (map anchor (List.filter (fun r => bool_decide (slugify (text r) = s))
                          (fst (extract_headings soup)))).
Proof.
  intros Hall.
  destruct (extract_headings_loop soup) as (Hl & Hhs & _).
  destruct (loop_same_slug s (find_all heading_names soup) (∅, []) 0)
    as (new & Hnew & Hmap); [apply lookup_empty | done |].
  rewrite Hl in Hnew. cbn [fst snd app] in Hnew. rewrite Hhs, Hnew, Hmap.
  split; [done |].
  apply NoDup_fmap_2; [| apply NoDup_seq].
  intros a b Hab. unfold suffixed in Hab.
  destruct (Z.of_nat a =? 0) eqn:Ha, (Z.of_nat b =? 0) eqn:Hb.
  - apply Z.eqb_eq in Ha, Hb. lia.
  - apply (f_equal length) in Hab. rewrite length_app in Hab. cbn in Hab. lia.
  - apply (f_equal length) in Hab. rewrite length_app in Hab. cbn in Hab. lia.
  - apply app_inv_head in Hab. injection Hab as Hab.
    apply str_of_int_inj in Hab. lia.
Qed.

End MoreExtractionFacts.

(** ** Further properties of the markup *)

Section MoreTocFacts.

Context {U : Unicode}.



End MoreTocFacts.

Lemma replace_from_absent old new s :
  occurs old s = false -> replace_from old new 0 s = s.
Proof.
  induction s as [| c r IH]; [done |].
  cbn [occurs replace_from]. intros [Hhere Hrest]%orb_false_iff.
  by rewrite Hhere, IH.
Qed.

Lemma starts_with_self old b : starts_with old (old ++ b) = true.
Proof. induction old as [| c o IH]; [done |]. cbn. by rewrite N.eqb_refl. Qed.

Lemma replace_from_skip old new x b :
  replace_from old new (length x) (x ++ b) = replace_from old new 0 b.
Proof.
  induction x as [| c x IH]; [done |].
  cbn [length app replace_from]. exact IH.
Qed.

Lemma replace_from_first old new a b :
  old <> [] ->
  clear_of old a = true ->
  replace_from old new 0 (a ++ old ++ b) = a ++ new ++ replace_from old new 0 b.
Proof.
  intros Hold. induction a as [| c a IH].
  - intros _. destruct old as [| c o]; [done |].
    change (([] : list N) ++ (c :: o) ++ b) with (c :: (o ++ b)).
    cbn [replace_from app].
    change (c :: o ++ b) with ((c :: o) ++ b). rewrite starts_with_self.
    cbn [length Nat.sub]. rewrite Nat.sub_0_r. by rewrite replace_from_skip.
  - intros [Hc Ha]%andb_prop.
    change ((c :: a) ++ old ++ b) with (c :: (a ++ old ++ b)).
    cbn [replace_from].
    change (c :: a ++ old ++ b) with ((c :: a) ++ old ++ b).
    rewrite (mismatch_starts_with _ _ _ Hc). by rewrite IH.
Qed.

Section MoreMarkupFacts.

Context {U : Unicode} {B : Bs4}.

(** X10.  The MathJax block goes in just before the end of the head and
    nowhere else: for a serialized soup [a </head> b] with the one
    [</head>], the markup written for the browser is [a], the block, a
    newline, [</head>], [b]. *)
Theorem toc_markup_with_head html_content title subtitle color a b :
  decode (snd (augment html_content title subtitle color))
    = a ++ py "</head>" ++ b ->
  clear_of (py "</head>") a = true ->
  occurs (py "</head>") b = false ->
  augmented_markup html_content title subtitle color
    = a ++ (mathjax_and_styles color ++ nl :: py "</head>") ++ b.
Proof.
  intros Hdec Ha Hb. unfold augmented_markup, replace. rewrite Hdec.
  rewrite replace_from_first by done. by rewrite replace_from_absent.
Qed.

(** X11.  A serialized soup without [</head>] is written for the browser
    as it is: the MathJax block and the styles are not put in at all. *)
Theorem toc_markup_without_head html_content title subtitle color :
  occurs (py "</head>") (decode (snd (augment html_content title subtitle color)))
    = false ->
  augmented_markup html_content title subtitle color
    = decode (snd (augment html_content title subtitle color)).
Proof. intros H. unfold augmented_markup, replace. by apply replace_from_absent. Qed.

End MoreMarkupFacts.

(** ** Further properties of the runs *)

Lemma external_run (E : env) c e w :
  external E c e w =
    (match raises E c with
     | Some msg => Exc (e msg)
     | None => Val tt
     end, World (files w) (trace w ++ [c])).
Proof. unfold external, bind, log, raise, ret. by destruct (raises E c). Qed.

Ltac run :=
  repeat first [ rewrite bind_run
               | rewrite external_returns by done
               | progress unfold set_file, log, print, ret, raise
               | progress cbn [files trace fst snd] ].

(** The same, stopping at each call whose outcome is not known. *)
Ltac run_cases :=
  repeat first [ rewrite bind_run
               | rewrite external_run
               | progress unfold set_file, log, print, ret, raise
               | progress cbn [files trace fst snd exn_str] ].

Section MoreRunFacts.

Context {U : Unicode} {B : Bs4} {P : Pathlib}.
Variable E : env.

(** X12.  When the four calls of the wait for MathJax return, they are
    made in order - the wait for the global with its 15000 ms bound, the
    2000 ms pause, the typeset script, the 3000 ms pause - and nothing
    else: no warning, no 5000 ms wait. *)
Theorem mathjax_wait_on_success w :
  Forall (fun c => raises E c = None) try_body_calls ->
  wait_for_mathjax E w = (Val tt, World (files w) (trace w ++ try_body_calls)).
Proof.
  unfold try_body_calls. rewrite !Forall_cons. intros (H1 & H2 & H3 & H4 & _).
  unfold wait_for_mathjax, try_except, page. run.
  by rewrite <- !app_assoc.
Qed.

(** X13.  Whatever the calls of the wait for MathJax do, the wait ends
    without an exception as soon as the 5000 ms wait of the handler
    returns: it touches no file, and its calls are either the four of
    the [try] or some of them followed by the warning and the 5000 ms
    wait. *)
Theorem mathjax_wait_never_fatal w :
  raises E (WaitForTimeout 5000) = None ->
  fst (wait_for_mathjax E w) = Val tt
  /\ files (snd (wait_for_mathjax E w)) = files w
  /\ (trace (snd (wait_for_mathjax E w)) = trace w ++ try_body_calls
      \/ exists attempted msg,
           prefix attempted try_body_calls
           /\ trace (snd (wait_for_mathjax E w))
              = trace w ++ attempted ++ [warning msg; WaitForTimeout 5000]).
Proof.
  intros Hfallback.
  unfold wait_for_mathjax, try_except, page, try_body_calls.
  run_cases.
  destruct (raises E (WaitForFunction _ _)) as [m |]; run_cases;
    [rewrite Hfallback; run_cases; repeat split; right;
     exists [WaitForFunction (py "typeof MathJax !== 'undefined'") 15000], m;
     split; [by eexists | by rewrite <- !app_assoc] |].
  destruct (raises E (WaitForTimeout 2000)) as [m |]; run_cases;
    [rewrite Hfallback; run_cases; repeat split; right;
     exists [WaitForFunction (py "typeof MathJax !== 'undefined'") 15000;
             WaitForTimeout 2000], m;
     split; [by eexists | by rewrite <- !app_assoc] |].
  destruct (raises E (Evaluate _)) as [m |]; run_cases;
    [rewrite Hfallback; run_cases; repeat split; right;
     exists [WaitForFunction (py "typeof MathJax !== 'undefined'") 15000;
             WaitForTimeout 2000; Evaluate typeset_script], m;
     split; [by eexists | by rewrite <- !app_assoc] |].
  destruct (raises E (WaitForTimeout 3000)) as [m |]; run_cases;
    [rewrite Hfallback; run_cases; repeat split; right;
     exists [WaitForFunction (py "typeof MathJax !== 'undefined'") 15000;
             WaitForTimeout 2000; Evaluate typeset_script; WaitForTimeout 3000], m;
     split; [by eexists | by rewrite <- !app_assoc] |].
  repeat split. left. by rewrite <- !app_assoc.
Qed.

Lemma wait_for_mathjax_files w :
  files (snd (wait_for_mathjax E w)) = files w.
Proof.
  unfold wait_for_mathjax, try_except, page. run_cases.
  destruct (raises E (WaitForFunction _ _)); run_cases;
    [by destruct (raises E (WaitForTimeout 5000)) |].
  destruct (raises E (WaitForTimeout 2000)); run_cases;
    [by destruct (raises E (WaitForTimeout 5000)) |].
  destruct (raises E (Evaluate _)); run_cases;
    [by destruct (raises E (WaitForTimeout 5000)) |].
  destruct (raises E (WaitForTimeout 3000)); run_cases;
    [by destruct (raises E (WaitForTimeout 5000)) | done].
Qed.

(** The files after the rendering block: those before, with the PDF
    written or not. *)
Lemma render_files temp_html pdf_path no_header_footer w :
  files (snd (render E temp_html pdf_path no_header_footer w)) = files w
  \/ (files (snd (render E temp_html pdf_path no_header_footer w))
        = <[pdf_path := pdf_bytes E]> (files w)
      /\ raises E (Pdf pdf_path no_header_footer) = None).
Proof.
  unfold render, try_finally, page. run_cases.
  destruct (raises E Playwright); run_cases; [by left |].
  destruct (raises E Launch); run_cases; [by left |].
  destruct (raises E NewPage); run_cases; [by left |].
  destruct (raises E (Goto _)); run_cases; [by left |].
  match goal with |- context [wait_for_mathjax E ?w0] =>
    pose proof (wait_for_mathjax_files w0) as Hfiles;
    destruct (wait_for_mathjax E w0) as [[[] | e] w1] end;
    cbn [snd files] in Hfiles; run_cases; [| by left].
  destruct (raises E (Pdf _ _)) eqn:Hpdf; run_cases; [by left |].
  rewrite Hfiles.
  destruct (raises E BrowserClose); run_cases; by right.
Qed.

(** X14.  The rendering block changes no file but the PDF, which is
    there with what the browser printed whenever the block returns
    without an exception. *)
Theorem render_touches_only_pdf temp_html pdf_path no_header_footer w :
  (forall path, path <> pdf_path ->
     files (snd (render E temp_html pdf_path no_header_footer w)) !! path
       = files w !! path)
  /\ (fst (render E temp_html pdf_path no_header_footer w) = Val tt ->
      files (snd (render E temp_html pdf_path no_header_footer w)) !! pdf_path
        = Some (pdf_bytes E)).
Proof.
  split.
  - intros path Hne.
    destruct (render_files temp_html pdf_path no_header_footer w) as [-> | [-> _]];
      [done | by rewrite lookup_insert_ne].
  - unfold render, try_finally, page. run_cases.
    destruct (raises E Playwright); run_cases; [done |].
    destruct (raises E Launch); run_cases; [done |].
    destruct (raises E NewPage); run_cases; [done |].
    destruct (raises E (Goto _)); run_cases; [done |].
    match goal with |- context [wait_for_mathjax E ?w0] =>
      destruct (wait_for_mathjax E w0) as [[[] | e] w1] end; run_cases; [| done].
    destruct (raises E (Pdf _ _)); run_cases; [done |].
    destruct (raises E BrowserClose); run_cases; [done |].
    intros _. apply lookup_insert_eq.
Qed.

Lemma render_returns temp_html pdf_path no_header_footer w :
  (forall c, raises E c = None) ->
  render E temp_html pdf_path no_header_footer w =
    (Val tt,
     World (<[pdf_path := pdf_bytes E]> (files w))
       (trace w
        ++ [Playwright; Launch; NewPage; Goto (py "file://" ++ absolute temp_html)]
        ++ try_body_calls
        ++ [Pdf pdf_path no_header_footer; BrowserClose; PlaywrightStop])).
Proof.
  intros Hall. unfold render, wait_for_mathjax, try_except, try_finally, page,
    try_body_calls.
  run. by rewrite <- !app_assoc.
Qed.

(** X15.  When the converter exits with an error, either script ends
    with [CalledProcessError], hence with status 1, right after the call
    of the converter: no file is read, written or deleted and the browser
    is not started. *)
Theorem converter_failure args notebook_arg output_arg w msg :
  is_Some (files w !! Path (notebook args)) ->
  is_Some (files w !! Path notebook_arg) ->
  raises E (Nbconvert (Path (notebook args))) = Some msg ->
  raises E (Nbconvert (Path notebook_arg)) = Some msg ->
  main_toc E args w =
    (Exc CalledProcessError,
     World (files w)
       (trace w
        ++ [Printed (py "Converting " ++ Path (notebook args)
                     ++ py " to PDF with TOC...");
            Nbconvert (Path (notebook args))]))
  /\ main_basic E notebook_arg output_arg w =
    (Exc CalledProcessError,
     World (files w)
       (trace w
        ++ [Printed (py "Converting " ++ Path notebook_arg ++ py " to PDF...");
            Printed (py "Step 1: Converting notebook to HTML...");
            Nbconvert (Path notebook_arg)]))
  /\ exit_code (Exc CalledProcessError) = 1.
Proof.
  intros Ht Hb Hct Hcb. split; [| split; [| done]].
  - unfold main_toc, exists_. rewrite bind_run, bool_decide_eq_true_2 by done.
    cbn [negb]. unfold convert_to_pdf_with_toc, nbconvert. run.
    rewrite (external_raises _ _ _ _ msg) by done. cbn [files trace].
    by rewrite <- !app_assoc.
  - unfold main_basic, exists_. rewrite bind_run, bool_decide_eq_true_2 by done.
    cbn [negb]. unfold convert_notebook_to_html, nbconvert. run.
    rewrite (external_raises _ _ _ _ msg) by done. cbn [files trace].
    by rewrite <- !app_assoc.
Qed.

(** X16.  Once the TOC script has its temporary markup written, its run
    ends, with or without an exception, with both markup files gone -
    also a markup file of that name that was there before the run - and
    with every file other than these two and the PDF as it was. *)
Theorem toc_run_footprint notebook_path pdf_path title subtitle color w :
  raises E (Nbconvert notebook_path) = None ->
  raises E (FileRead (html_path_of notebook_path)) = None ->
  raises E (FileWrite (toc_temp_of (html_path_of notebook_path))) = None ->
  files (snd (convert_to_pdf_with_toc E notebook_path pdf_path
                title subtitle color w)) !! html_path_of notebook_path = None
  /\ files (snd (convert_to_pdf_with_toc E notebook_path pdf_path
                   title subtitle color w))
       !! toc_temp_of (html_path_of notebook_path) = None
  /\ forall path,
       path <> html_path_of notebook_path ->
       path <> toc_temp_of (html_path_of notebook_path) ->
       path <> pdf_path ->
       files (snd (convert_to_pdf_with_toc E notebook_path pdf_path
                     title subtitle color w)) !! path
         = files w !! path.
Proof.
  intros Hconv Hread Hwrite.
  rewrite convert_to_pdf_with_toc_run by done.
  assert (forall path, path <> pdf_path ->
            files (snd (render E (toc_temp_of (html_path_of notebook_path))
                          pdf_path true
                          (toc_ready E notebook_path title subtitle color w)))
              !! path
            = files (toc_ready E notebook_path title subtitle color w) !! path)
    as Hother.
  { intros path Hne.
    destruct (render_files (toc_temp_of (html_path_of notebook_path)) pdf_path true
                (toc_ready E notebook_path title subtitle color w))
      as [-> | [-> _]]; [done | by rewrite lookup_insert_ne]. }
  destruct (render E _ _ _ _) as [r w']. cbn [snd files] in *.
  split; [apply lookup_delete_eq |]. split.
  - destruct (decide (html_path_of notebook_path
                      = toc_temp_of (html_path_of notebook_path))) as [<- | Hne].
    + apply lookup_delete_eq.
    + rewrite lookup_delete_ne by done. apply lookup_delete_eq.
  - intros path Hh Ht Hp.
    rewrite !lookup_delete_ne, Hother by done.
    unfold toc_ready. cbn [files]. by rewrite !lookup_insert_ne.
Qed.



(** The basic script's conversion when every call returns. *)
Lemma convert_html_to_pdf_returns html_path content pdf_path w :
  (forall c, raises E c = None) ->
  files w !! html_path = Some content ->
  convert_html_to_pdf E html_path pdf_path w =
    (Val tt,
     World (delete (mathjax_temp_of html_path)
              (<[pdf_path := pdf_bytes E]>
                 (files (basic_ready html_path content w))))
       (trace (basic_ready html_path content w)
        ++ [Playwright; Launch; NewPage;
            Goto (py "file://" ++ absolute (mathjax_temp_of html_path))]
        ++ try_body_calls
        ++ [Pdf pdf_path false; BrowserClose; PlaywrightStop])).
Proof.
  intros Hall Hfile. rewrite (convert_html_to_pdf_run _ html_path content) by done.
  by rewrite render_returns.
Qed.

(** X18.  A run of the basic script in which every call returns, the
    three paths (PDF, converter markup, temporary copy) being distinct:
    it ends with status 0, the PDF is there, neither markup file is left,
    and every other file is as it was. *)
Theorem successful_basic_run notebook_arg output_arg w :
  (forall c, raises E c = None) ->
  is_Some (files w !! Path notebook_arg) ->
  pdf_path_of output_arg (Path notebook_arg) <> html_path_of (Path notebook_arg) ->
  pdf_path_of output_arg (Path notebook_arg)
    <> mathjax_temp_of (html_path_of (Path notebook_arg)) ->
  mathjax_temp_of (html_path_of (Path notebook_arg))
    <> html_path_of (Path notebook_arg) ->
  exit_code (fst (main_basic E notebook_arg output_arg w)) = 0
  /\ files (snd (main_basic E notebook_arg output_arg w))
       !! pdf_path_of output_arg (Path notebook_arg)
     = Some (pdf_bytes E)
  /\ files (snd (main_basic E notebook_arg output_arg w))
       !! html_path_of (Path notebook_arg) = None
  /\ files (snd (main_basic E notebook_arg output_arg w))
       !! mathjax_temp_of (html_path_of (Path notebook_arg)) = None
  /\ forall path,
       path <> pdf_path_of output_arg (Path notebook_arg) ->
       path <> html_path_of (Path notebook_arg) ->
       path <> mathjax_temp_of (html_path_of (Path notebook_arg)) ->
       files (snd (main_basic E notebook_arg output_arg w)) !! path
         = files w !! path.
Proof.
  intros Hall Hnb Hph Hpt Hth.
  unfold main_basic, exists_. rewrite bind_run, bool_decide_eq_true_2 by done.
  cbn [negb]. unfold convert_notebook_to_html, nbconvert. run.
  rewrite (convert_html_to_pdf_returns _ (converter_output E))
    by (try done; cbn [files]; apply lookup_insert_eq).
  unfold basic_ready, unlink, print_size, exists_. run.
  rewrite lookup_delete_ne, lookup_insert_ne, lookup_insert_ne, lookup_insert_eq
    by done.
  run.
  rewrite bool_decide_eq_true_2
    by (rewrite !lookup_delete_ne, lookup_insert_eq by done; by eexists).
  run. split; [done |]. split; [| split; [| split]].
  - by rewrite !lookup_delete_ne, lookup_insert_eq.
  - apply lookup_delete_eq.
  - rewrite lookup_delete_ne by done. apply lookup_delete_eq.
  - intros path H1 H2 H3. by rewrite !lookup_delete_ne, !lookup_insert_ne.
Qed.


(** X20.  The basic script hands the browser a copy of the converter's
    markup with its MathJax block put in just before the end of the head:
    for a markup [a </head> b] with the one [</head>], the copy is [a],
    the block, a newline, [</head>], [b]; the copy is deleted after the
    rendering, whatever the rendering does. *)
Theorem basic_markup_with_head html_path pdf_path w a b :
  files w !! html_path = Some (a ++ py "</head>" ++ b) ->
  clear_of (py "</head>") a = true ->
  occurs (py "</head>") b = false ->
  raises E (FileRead html_path) = None ->
  raises E (FileWrite (mathjax_temp_of html_path)) = None ->
  convert_html_to_pdf E html_path pdf_path w =
    let '(r, w') :=
      render E (mathjax_temp_of html_path) pdf_path false
        (World (<[mathjax_temp_of html_path :=
                    a ++ (mathjax_config ++ nl :: py "</head>") ++ b]> (files w))
           (trace w ++ [FileRead html_path; FileWrite (mathjax_temp_of html_path)])) in
    (r, World (delete (mathjax_temp_of html_path) (files w')) (trace w')).
Proof.
  intros Hfile Ha Hb Hread Hwrite.
  rewrite (convert_html_to_pdf_run _ html_path (a ++ py "</head>" ++ b)) by done.
  unfold basic_ready, replace.
  rewrite replace_from_first by done. by rewrite replace_from_absent.
Qed.

(** X21.  A markup without [</head>] reaches the browser as the converter
    wrote it: the basic script puts no MathJax block in. *)
Theorem basic_markup_without_head html_path content pdf_path w :
  files w !! html_path = Some content ->
  occurs (py "</head>") content = false ->
  raises E (FileRead html_path) = None ->
  raises E (FileWrite (mathjax_temp_of html_path)) = None ->
  convert_html_to_pdf E html_path pdf_path w =
    let '(r, w') :=
      render E (mathjax_temp_of html_path) pdf_path false
        (World (<[mathjax_temp_of html_path := content]> (files w))
           (trace w ++ [FileRead html_path; FileWrite (mathjax_temp_of html_path)])) in
    (r, World (delete (mathjax_temp_of html_path) (files w')) (trace w')).
Proof.
  intros Hfile Hnone Hread Hwrite.
  rewrite (convert_html_to_pdf_run _ html_path content) by done.
  unfold basic_ready, replace. by rewrite replace_from_absent.
Qed.

End MoreRunFacts.

(** ** The fragments and the text of the document *)

Lemma mutate_first_text_of name f extra l :
  (forall cs, flat_map get_text (f cs) = extra ++ flat_map get_text cs) ->
  Forall (fun n => forall n',
    mutate_first_node name f n = Some n' ->
    exists pre post,
      get_text n = pre ++ post /\ get_text n' = pre ++ extra ++ post) l ->
  forall l',
    mutate_first name f l = Some l' ->
    exists pre post,
      flat_map get_text l = pre ++ post
      /\ flat_map get_text l' = pre ++ extra ++ post.
Proof.
  intros Hf. induction 1 as [| c r Hc _ IH]; intros l' Hl'; [done |].
  cbn [mutate_first] in Hl'.
  destruct (mutate_first_node name f c) as [c' |] eqn:Hm.
  - injection Hl' as <-. destruct (Hc c' eq_refl) as (pre & post & H1 & H2).
    exists pre, (post ++ flat_map get_text r). cbn [flat_map].
    by rewrite H1, H2, <- !app_assoc.
  - destruct (mutate_first name f r) as [r' |]; [| done].
    injection Hl' as <-. destruct (IH r' eq_refl) as (pre & post & H1 & H2).
    exists (get_text c ++ pre), post. cbn [flat_map].
    by rewrite H1, H2, <- !app_assoc.
Qed.

Lemma mutate_first_node_text name f extra n :
  (forall cs, flat_map get_text (f cs) = extra ++ flat_map get_text cs) ->
  forall n',
    mutate_first_node name f n = Some n' ->
    exists pre post,
      get_text n = pre ++ post /\ get_text n' = pre ++ extra ++ post.
Proof.
  intros Hf. induction n as [s | nm a cs IH] using node_ind'; intros n' Hn'; [done |].
  rewrite mutate_first_node_tag in Hn'.
  destruct (bool_decide (nm = name)).
  - injection Hn' as <-. exists [], (flat_map get_text cs).
    cbn [get_text app]. by rewrite Hf.
  - destruct (mutate_first name f cs) as [cs' |] eqn:Hcs; [| done].
    injection Hn' as <-.
    exact (mutate_first_text_of name f extra cs Hf IH cs' Hcs).
Qed.

(** X22.  The insertion of the fragments loses and moves nothing of the
    document: the text of the soup after it is the text before it with,
    at one place, the text of the title fragment then that of the table
    of contents (nothing at all when there is no body). *)
Theorem insert_fragments_keeps_text title_soup toc_soup soup :
  exists pre post,
    flat_map get_text soup = pre ++ post
    /\ flat_map get_text (insert_fragments title_soup toc_soup soup)
       = pre
         ++ match find (py "body") soup with
            | Some _ => flat_map get_text title_soup ++ flat_map get_text toc_soup
            | None => []
            end
         ++ post.
Proof.
  unfold insert_fragments.
  destruct (find (py "body") soup) as [body_tag |] eqn:Hfind;
    [| by exists [], (flat_map get_text soup)].
  assert (exists soup',
            mutate_first (py "body")
              (fun contents => tag_insert 0 title_soup (tag_insert 0 toc_soup contents))
              soup = Some soup') as [soup' Hm].
  { destruct body_tag as [s | nm a cs].
    - unfold find, find_all in Hfind.
      destruct (List.filter _ _) as [| t l] eqn:Hl; [done |].
      injection Hfind as ->.
      assert (In (NavigableString s) (NavigableString s :: l)) as Hin by by left.
      rewrite <- Hl in Hin. by apply filter_In in Hin as [_ Hin].
    - destruct (mutate_first_spec (py "body")
                  (fun contents =>
                     tag_insert 0 title_soup (tag_insert 0 toc_soup contents)) soup)
        as [_ H].
      destruct (H nm a cs Hfind) as (soup' & Hm & _). by exists soup'. }
  rewrite Hm. cbn [default from_option id]. revert Hm.
  assert (forall cs,
            flat_map get_text (tag_insert 0 title_soup (tag_insert 0 toc_soup cs))
            = (flat_map get_text title_soup ++ flat_map get_text toc_soup)
                ++ flat_map get_text cs) as Hf.
  { intros cs.
    change (tag_insert 0 title_soup (tag_insert 0 toc_soup cs))
      with (title_soup ++ toc_soup ++ cs).
    by rewrite !flat_map_app, app_assoc. }
  apply mutate_first_text_of; [done |].
  apply Forall_forall. intros n _ n'. by apply mutate_first_node_text.
Qed.

(** ** Anchors of distinct slugs *)

Section FreshSlugs.

Context {U : Unicode}.

(** The loop on tags that bring no [id] and whose slugs are pairwise
    distinct and new to the counter: every anchor is the slug. *)
Lemma loop_fresh l :
  forall st,
    Forall (fun t => has_text t = true -> truthy (get_id t) = false) l ->
    NoDup (map (fun t => slugify (clean_text (get_text t))) (List.filter has_text l)) ->
    Forall (fun t => fst st !! slugify (clean_text (get_text t)) = None)
      (List.filter has_text l) ->
    exists new,
      snd (fst (loop st l)) = snd st ++ new
      /\ map (fun r => (text r, anchor r)) new
         = map (fun t => (clean_text (get_text t), slugify (clean_text (get_text t))))
             (List.filter has_text l).
Proof.
  induction l as [| t l IH]; intros st Hall Hnd Hfresh; cbn [loop].
  { exists []. by rewrite app_nil_r. }
  apply Forall_cons in Hall as [Hid Hall].
  pose proof (visit_same_slug st t (slugify (clean_text (get_text t))) 0) as Hsame.
  pose proof (fun s => visit_other_slug st t s 0) as Hother.
  pose proof (visit_skip st t) as Hskip.
  destruct (visit st _ _ _) as [st1 a']. cbn [fst snd List.filter] in *.
  destruct (has_text t) eqn:Ht.
  - cbn [map] in Hnd. apply NoDup_cons in Hnd as [Hnotin Hnd].
    apply Forall_cons in Hfresh as [Hnew Hfresh].
    destruct Hsame as (r & Hr & Htxt & Hanchor & _);
      [exact Hnew | unfold has_slug; by rewrite Ht, bool_decide_eq_true_2
      | by apply Hid |].
    destruct (IH st1 Hall Hnd) as (new & Hrest & Hmap).
    { apply Forall_forall. intros t' Hin.
      destruct (Hother (slugify (clean_text (get_text t')))) as (_ & _ & _ & Hseen).
      - exact (proj1 (Forall_forall _ _) Hfresh t' Hin).
      - unfold has_slug. rewrite Ht, bool_decide_eq_false_2; [done |].
        intros Heq. apply Hnotin. rewrite Heq.
        by apply (list_elem_of_fmap_2
                    (fun t => slugify (clean_text (get_text t)))).
      - exact Hseen. }
    destruct (loop st1 l) as [st2 r']. cbn [fst snd] in *.
    exists (r :: new). rewrite Hrest, Hr, <- app_assoc. split; [done |].
    cbn [map]. by rewrite Htxt, Hanchor, Hmap.
  - specialize (Hskip eq_refl). apply pair_equal_spec in Hskip as [-> _].
    destruct (IH st Hall Hnd Hfresh) as (new & Hrest & Hmap).
    destruct (loop st l) as [st2 r']. cbn [fst snd] in *.
    by exists new.
Qed.

(** X23.  When the h1-h4 elements with text bring no [id] and the slugs
    of their texts are pairwise distinct, no suffix is given: the anchor
    of every record is the slug of its text, and the anchors are pairwise
    distinct. *)
Theorem distinct_slugs_need_no_suffix soup :
  Forall (fun t => has_text t = true -> truthy (get_id t) = false)
    (find_all heading_names soup) ->
  NoDup (map (fun t => slugify (clean_text (get_text t)))
           (List.filter has_text (find_all heading_names soup))) ->
  map anchor (fst (extract_headings soup))
    = map (fun r => slugify (text r)) (fst (extract_headings soup))
  /\ NoDup (map anchor (fst (extract_headings soup))).
Proof.
  intros Hall Hnd.
  destruct (extract_headings_loop soup) as (Hl & Hhs & _).
  destruct (loop_fresh (find_all heading_names soup) (∅, []) Hall Hnd)
    as (new & Hnew & Hmap).
  { apply Forall_forall. intros t _. apply lookup_empty. }
  rewrite Hl in Hnew. cbn [fst snd app] in Hnew. rewrite Hhs, Hnew.
  assert (map anchor new
          = map (fun t => slugify (clean_text (get_text t)))
              (List.filter has_text (find_all heading_names soup))) as Hanchors.
  { apply (f_equal (map snd)) in Hmap. by rewrite !map_map in Hmap. }
  assert (map text new
          = map (fun t => clean_text (get_text t))
              (List.filter has_text (find_all heading_names soup))) as Htexts.
  { apply (f_equal (map fst)) in Hmap. by rewrite !map_map in Hmap. }
  split; [| by rewrite Hanchors].
  rewrite Hanchors, <- (map_map text slugify), Htexts. by rewrite map_map.
Qed.

End FreshSlugs.

(** ** The title page *)

(** X24.  The title page opens no link: with no [<] in the title, the
    subtitle and the color, the links of the two fragments put into the
    body are those of the table of contents alone. *)
Theorem title_page_has_no_links title subtitle color :
  free_of lt_sign title = true ->
  free_of lt_sign subtitle = true ->
  free_of lt_sign color = true ->
  hrefs (generate_title_page title subtitle color) = [].
Proof.
  intros Ht Hs Hc.
  rewrite <- (app_nil_r (generate_title_page title subtitle color)).
  rewrite hrefs_app_inert; [reflexivity |].
  unfold generate_title_page. inert_chain.
Qed.

(** ** The calls of a run in which nothing fails *)

Section SuccessfulRuns.

Context {U : Unicode} {B : Bs4} {P : Pathlib}.
Variable E : env.



(** X26.  The calls of a run of the basic script in which every call
    returns, in order: the three lines and the converter, the read of its
    markup and the write of the copy, the browser session with the four
    calls of the wait for MathJax and [page.pdf] with the default header
    and footer, then the two closing lines. *)
Theorem successful_basic_run_calls notebook_arg output_arg w :
  (forall c, raises E c = None) ->
  is_Some (files w !! Path notebook_arg) ->
  pdf_path_of output_arg (Path notebook_arg) <> html_path_of (Path notebook_arg) ->
  pdf_path_of output_arg (Path notebook_arg)
    <> mathjax_temp_of (html_path_of (Path notebook_arg)) ->
  mathjax_temp_of (html_path_of (Path notebook_arg))
    <> html_path_of (Path notebook_arg) ->
  trace (snd (main_basic E notebook_arg output_arg w)) =
    trace w
    ++ [Printed (py "Converting " ++ Path notebook_arg ++ py " to PDF...");
        Printed (py "Step 1: Converting notebook to HTML...");
        Nbconvert (Path notebook_arg);
        Printed (py "Step 2: Rendering MathJax and generating PDF...");
        FileRead (html_path_of (Path notebook_arg));
        FileWrite (mathjax_temp_of (html_path_of (Path notebook_arg)));
        Playwright; Launch; NewPage;
        Goto (py "file://"
              ++ absolute (mathjax_temp_of (html_path_of (Path notebook_arg))))]
    ++ try_body_calls
    ++ [Pdf (pdf_path_of output_arg (Path notebook_arg)) false;
        BrowserClose; PlaywrightStop;
        Printed (nl :: 226%N :: 339%N :: 8220%N :: py " PDF created: "
                 ++ pdf_path_of output_arg (Path notebook_arg));
        PrintedSize (pdf_path_of output_arg (Path notebook_arg))].
Proof.
  intros Hall Hnb Hph Hpt Hth.
  unfold main_basic, exists_. rewrite bind_run, bool_decide_eq_true_2 by done.
  cbn [negb]. unfold convert_notebook_to_html, nbconvert. run.
  rewrite (convert_html_to_pdf_returns E _ (converter_output E))
    by (try done; cbn [files]; apply lookup_insert_eq).
  unfold basic_ready, unlink, print_size, exists_. run.
  rewrite lookup_delete_ne, lookup_insert_ne, lookup_insert_ne, lookup_insert_eq
    by done.
  run.
  rewrite bool_decide_eq_true_2
    by (rewrite !lookup_delete_ne, lookup_insert_eq by done; by eexists).
  run. by rewrite <- !app_assoc.
Qed.

End SuccessfulRuns.

(** ** The further properties at concrete inputs *)

Lemma anchored_document_unchanged_witness :
  Forall (fun t => has_text t = true -> truthy (get_id t) = true)
    (find_all heading_names anchored)
  /\ snd (extract_headings (U := ascii) anchored) = anchored
  /\ map (fun r => Some (anchor r)) (fst (extract_headings (U := ascii) anchored))
     = map get_id (List.filter has_text (find_all heading_names anchored)).
Proof.
  assert (Forall (fun t => has_text t = true -> truthy (get_id t) = true)
            (find_all heading_names anchored)) as Hall.
  { change (find_all heading_names anchored) with anchored.
    repeat constructor; first [ intros _; vm_compute; reflexivity
                              | intros H; vm_compute in H; discriminate ]. }
  split; [exact Hall |].
  exact (anchored_document_unchanged (U := ascii) anchored Hall).
Defined.

Lemma same_slug_numbered_witness :
  Forall (fun t => has_slug (U := ascii) (py "step") t = true
                   -> truthy (get_id t) = false)
    (find_all heading_names three_steps)
  /\ map anchor (List.filter
                   (fun r => bool_decide (slugify (U := ascii) (text r) = py "step"))
                   (fst (extract_headings (U := ascii) three_steps)))
     = [py "step"; py "step-1"].
Proof.
  assert (Forall (fun t => has_slug (U := ascii) (py "step") t = true
                           -> truthy (get_id t) = false)
            (find_all heading_names three_steps)) as Hall.
  { change (find_all heading_names three_steps) with three_steps.
    repeat constructor; intros _; vm_compute; reflexivity. }
  split; [exact Hall |].
  rewrite (proj1 (same_slug_numbered (U := ascii) three_steps (py "step") Hall)).
  vm_compute. reflexivity.
Defined.



Lemma toc_markup_with_head_witness :
  decode (Bs4 := no_body)
    (snd (augment (U := ascii) (B := no_body)
            (py "<head></head><p>x</p>") (py "T") (py "S") default_color))
    = py "<head>" ++ py "</head>" ++ py "<p>x</p>"
  /\ clear_of (py "</head>") (py "<head>") = true
  /\ occurs (py "</head>") (py "<p>x</p>") = false
  /\ augmented_markup (U := ascii) (B := no_body)
       (py "<head></head><p>x</p>") (py "T") (py "S") default_color
     = py "<head>" ++ (mathjax_and_styles default_color ++ nl :: py "</head>")
         ++ py "<p>x</p>".
Proof.
  split; [vm_compute; reflexivity |].
  split; [vm_compute; reflexivity |].
  split; [vm_compute; reflexivity |].
  apply (toc_markup_with_head (U := ascii) (B := no_body)
           (py "<head></head><p>x</p>") (py "T") (py "S") default_color
           (py "<head>") (py "<p>x</p>"));
    vm_compute; reflexivity.
Defined.

Lemma toc_markup_without_head_witness :
  occurs (py "</head>")
    (decode (Bs4 := no_body)
       (snd (augment (U := ascii) (B := no_body)
               (py "<p>x</p>") (py "T") (py "S") default_color)))
    = false
  /\ augmented_markup (U := ascii) (B := no_body)
       (py "<p>x</p>") (py "T") (py "S") default_color
     = decode (Bs4 := no_body)
         (snd (augment (U := ascii) (B := no_body)
                 (py "<p>x</p>") (py "T") (py "S") default_color)).
Proof.
  split; [vm_compute; reflexivity |].
  apply (toc_markup_without_head (U := ascii) (B := no_body)
           (py "<p>x</p>") (py "T") (py "S") default_color).
  vm_compute. reflexivity.
Defined.

Lemma mathjax_wait_on_success_witness :
  Forall (fun c => raises all_return c = None) try_body_calls
  /\ wait_for_mathjax all_return one_notebook
     = (Val tt, World (files one_notebook) (trace one_notebook ++ try_body_calls)).
Proof.
  assert (Forall (fun c => raises all_return c = None) try_body_calls) as Hall
    by (repeat constructor).
  split; [exact Hall |].
  exact (mathjax_wait_on_success all_return one_notebook Hall).
Defined.

Lemma mathjax_wait_never_fatal_witness :
  raises mathjax_times_out (WaitForTimeout 5000) = None
  /\ fst (wait_for_mathjax mathjax_times_out one_notebook) = Val tt
  /\ files (snd (wait_for_mathjax mathjax_times_out one_notebook))
     = files one_notebook.
Proof.
  split; [vm_compute; reflexivity |].
  destruct (mathjax_wait_never_fatal mathjax_times_out one_notebook)
    as (Hval & Hfiles & _); [vm_compute; reflexivity |].
  by split.
Defined.

Lemma render_touches_only_pdf_witness :
  py "nb.ipynb" <> py "nb.pdf"
  /\ files (snd (render (P := bare_names) pdf_fails
                   (py "nb_toc.html") (py "nb.pdf") true one_notebook))
       !! py "nb.ipynb"
     = files one_notebook !! py "nb.ipynb".
Proof.
  assert (py "nb.ipynb" <> py "nb.pdf") as Hne by (vm_compute; discriminate).
  split; [exact Hne |].
  exact (proj1 (render_touches_only_pdf (P := bare_names) pdf_fails
                  (py "nb_toc.html") (py "nb.pdf") true one_notebook)
           (py "nb.ipynb") Hne).
Defined.

Lemma converter_failure_witness :
  is_Some (files one_notebook !! Path (Pathlib := bare_names) (notebook nb_args))
  /\ is_Some (files one_notebook !! Path (Pathlib := bare_names) (py "nb.ipynb"))
  /\ raises converter_fails
       (Nbconvert (Path (Pathlib := bare_names) (notebook nb_args)))
     = Some (py "returned non-zero exit status 1")
  /\ raises converter_fails (Nbconvert (Path (Pathlib := bare_names) (py "nb.ipynb")))
     = Some (py "returned non-zero exit status 1")
  /\ fst (main_toc (U := ascii) (B := one_string_body) (P := bare_names)
            converter_fails nb_args one_notebook)
     = Exc CalledProcessError
  /\ fst (main_basic (P := bare_names) converter_fails (py "nb.ipynb") None
            one_notebook)
     = Exc CalledProcessError.
Proof.
  assert (is_Some (files one_notebook !! py "nb.ipynb")) as Hnb
    by (eexists; vm_compute; reflexivity).
  split; [exact Hnb |]. split; [exact Hnb |].
  split; [reflexivity |]. split; [reflexivity |].
  destruct (converter_failure (U := ascii) (B := one_string_body) (P := bare_names)
              converter_fails nb_args (py "nb.ipynb") None one_notebook
              (py "returned non-zero exit status 1") Hnb Hnb eq_refl eq_refl)
    as (Htoc & Hbasic & _).
  split; [by rewrite Htoc | by rewrite Hbasic].
Defined.

Lemma toc_run_footprint_witness :
  raises pdf_fails (Nbconvert (py "nb.ipynb")) = None
  /\ raises pdf_fails (FileRead (html_path_of (P := bare_names) (py "nb.ipynb"))) = None
  /\ raises pdf_fails
       (FileWrite (toc_temp_of (P := bare_names)
                     (html_path_of (P := bare_names) (py "nb.ipynb")))) = None
  /\ files (snd (convert_to_pdf_with_toc (U := ascii) (B := one_string_body)
                   (P := bare_names) pdf_fails (py "nb.ipynb") (py "nb.pdf")
                   (py "T") (py "S") default_color one_notebook))
       !! html_path_of (P := bare_names) (py "nb.ipynb") = None
  /\ files (snd (convert_to_pdf_with_toc (U := ascii) (B := one_string_body)
                   (P := bare_names) pdf_fails (py "nb.ipynb") (py "nb.pdf")
                   (py "T") (py "S") default_color one_notebook))
       !! toc_temp_of (P := bare_names)
            (html_path_of (P := bare_names) (py "nb.ipynb")) = None.
Proof.
  do 3 (split; [reflexivity |]).
  destruct (toc_run_footprint (U := ascii) (B := one_string_body) (P := bare_names)
              pdf_fails (py "nb.ipynb") (py "nb.pdf") (py "T") (py "S")
              default_color one_notebook eq_refl eq_refl eq_refl)
    as (Hhtml & Htemp & _).
  by split.
Defined.


Lemma successful_basic_run_witness :
  (forall c, raises all_return c = None)
  /\ is_Some (files one_notebook !! Path (Pathlib := bare_names) (py "nb.ipynb"))
  /\ py "nb.pdf" <> py "nb.html"
  /\ py "nb.pdf" <> py "nb_mathjax.html"
  /\ py "nb_mathjax.html" <> py "nb.html"
  /\ exit_code (fst (main_basic (P := bare_names) all_return (py "nb.ipynb") None
                       one_notebook)) = 0
  /\ files (snd (main_basic (P := bare_names) all_return (py "nb.ipynb") None
                   one_notebook)) !! py "nb.pdf"
     = Some (pdf_bytes all_return)
  /\ files (snd (main_basic (P := bare_names) all_return (py "nb.ipynb") None
                   one_notebook)) !! py "nb.html"
     = None.
Proof.
  assert (is_Some (files one_notebook !! py "nb.ipynb")) as Hnb
    by (eexists; vm_compute; reflexivity).
  assert (py "nb.pdf" <> py "nb.html") as Hph by (vm_compute; discriminate).
  assert (py "nb.pdf" <> py "nb_mathjax.html") as Hpt by (vm_compute; discriminate).
  assert (py "nb_mathjax.html" <> py "nb.html") as Hth by (vm_compute; discriminate).
  split; [done |]. split; [exact Hnb |]. split; [exact Hph |].
  split; [exact Hpt |]. split; [exact Hth |].
  destruct (successful_basic_run (P := bare_names) all_return (py "nb.ipynb") None
              one_notebook (fun _ => eq_refl) Hnb Hph Hpt Hth)
    as (Hexit & Hpdf & Hhtml & _).
  split; [exact Hexit |]. split; [exact Hpdf | exact Hhtml].
Defined.


Lemma basic_markup_with_head_witness :
  files with_head !! py "nb.html"
    = Some (py "<head>" ++ py "</head>" ++ py "<p>x</p>")
  /\ clear_of (py "</head>") (py "<head>") = true
  /\ occurs (py "</head>") (py "<p>x</p>") = false
  /\ raises all_return (FileRead (py "nb.html")) = None
  /\ raises all_return
       (FileWrite (mathjax_temp_of (P := bare_names) (py "nb.html"))) = None
  /\ convert_html_to_pdf (P := bare_names) all_return
       (py "nb.html") (py "nb.pdf") with_head
     = (let '(r, w') :=
          render (P := bare_names) all_return
            (mathjax_temp_of (P := bare_names) (py "nb.html")) (py "nb.pdf") false
            (World (<[mathjax_temp_of (P := bare_names) (py "nb.html") :=
                        py "<head>" ++ (mathjax_config ++ nl :: py "</head>")
                          ++ py "<p>x</p>"]> (files with_head))
               (trace with_head
                ++ [FileRead (py "nb.html");
                    FileWrite (mathjax_temp_of (P := bare_names) (py "nb.html"))])) in
        (r, World (delete (mathjax_temp_of (P := bare_names) (py "nb.html")) (files w'))
              (trace w'))).
Proof.
  split; [vm_compute; reflexivity |].
  split; [vm_compute; reflexivity |].
  split; [vm_compute; reflexivity |].
  split; [reflexivity |]. split; [reflexivity |].
  apply (basic_markup_with_head (P := bare_names) all_return
           (py "nb.html") (py "nb.pdf") with_head (py "<head>") (py "<p>x</p>"));
    first [reflexivity | vm_compute; reflexivity].
Defined.

Lemma basic_markup_without_head_witness :
  files without_head !! py "nb.html" = Some (py "<p>x</p>")
  /\ occurs (py "</head>") (py "<p>x</p>") = false
  /\ raises all_return (FileRead (py "nb.html")) = None
  /\ raises all_return
       (FileWrite (mathjax_temp_of (P := bare_names) (py "nb.html"))) = None
  /\ convert_html_to_pdf (P := bare_names) all_return
       (py "nb.html") (py "nb.pdf") without_head
     = (let '(r, w') :=
          render (P := bare_names) all_return
            (mathjax_temp_of (P := bare_names) (py "nb.html")) (py "nb.pdf") false
            (World (<[mathjax_temp_of (P := bare_names) (py "nb.html") :=
                        py "<p>x</p>"]> (files without_head))
               (trace without_head
                ++ [FileRead (py "nb.html");
                    FileWrite (mathjax_temp_of (P := bare_names) (py "nb.html"))])) in
        (r, World (delete (mathjax_temp_of (P := bare_names) (py "nb.html")) (files w'))
              (trace w'))).
Proof.
  split; [vm_compute; reflexivity |].
  split; [vm_compute; reflexivity |].
  split; [reflexivity |]. split; [reflexivity |].
  apply (basic_markup_without_head (P := bare_names) all_return
           (py "nb.html") (py "<p>x</p>") (py "nb.pdf") without_head);
    first [reflexivity | vm_compute; reflexivity].
Defined.
Lemma distinct_slugs_need_no_suffix_witness :
  Forall (fun t => has_text t = true -> truthy (get_id t) = false)
    (find_all heading_names intro_details)
  /\ NoDup (map (fun t => slugify (U := ascii) (clean_text (get_text t)))
              (List.filter has_text (find_all heading_names intro_details)))
  /\ map anchor (fst (extract_headings (U := ascii) intro_details))
     = map (fun r => slugify (U := ascii) (text r))
         (fst (extract_headings (U := ascii) intro_details)).
Proof.
  assert (Forall (fun t => has_text t = true -> truthy (get_id t) = false)
            (find_all heading_names intro_details)) as Hall.
  { change (find_all heading_names intro_details) with intro_details.
    repeat constructor; intros _; vm_compute; reflexivity. }
  assert (NoDup (map (fun t => slugify (U := ascii) (clean_text (get_text t)))
                   (List.filter has_text (find_all heading_names intro_details))))
    as Hnd.
  { apply (bool_decide_unpack _). vm_compute. exact I. }
  split; [exact Hall |]. split; [exact Hnd |].
  exact (proj1 (distinct_slugs_need_no_suffix (U := ascii) intro_details Hall Hnd)).
Defined.

Lemma title_page_has_no_links_witness :
  free_of lt_sign (py "Document Title") = true
  /\ free_of lt_sign [] = true
  /\ free_of lt_sign default_color = true
  /\ hrefs (generate_title_page (py "Document Title") [] default_color) = [].
Proof.
  split; [vm_compute; reflexivity |].
  split; [vm_compute; reflexivity |].
  split; [vm_compute; reflexivity |].
  apply (title_page_has_no_links (py "Document Title") [] default_color);
    vm_compute; reflexivity.
Defined.


Lemma successful_basic_run_calls_witness :
  (forall c, raises all_return c = None)
  /\ is_Some (files one_notebook !! py "nb.ipynb")
  /\ py "nb.pdf" <> py "nb.html"
  /\ py "nb.pdf" <> py "nb_mathjax.html"
  /\ py "nb_mathjax.html" <> py "nb.html"
  /\ length (trace (snd (main_basic (P := bare_names) all_return (py "nb.ipynb") None
                           one_notebook)))
     = 19%nat.
Proof.
  assert (is_Some (files one_notebook !! py "nb.ipynb")) as Hnb
    by (eexists; vm_compute; reflexivity).
  assert (py "nb.pdf" <> py "nb.html") as Hph by (vm_compute; discriminate).
  assert (py "nb.pdf" <> py "nb_mathjax.html") as Hpt by (vm_compute; discriminate).
  assert (py "nb_mathjax.html" <> py "nb.html") as Hth by (vm_compute; discriminate).
  split; [done |]. split; [exact Hnb |]. split; [exact Hph |].
  split; [exact Hpt |]. split; [exact Hth |].
  rewrite (successful_basic_run_calls (P := bare_names) all_return (py "nb.ipynb")
             None one_notebook (fun _ => eq_refl) Hnb Hph Hpt Hth).
  reflexivity.
Defined.
